(** * RCOS I/O portal: models, hooks and views of the [portal] application

    A shallow embedding of [portal/models.py], [portal/views/auth.py],
    [portal/views/index.py] and of the uniqueness constraints declared by
    the model options and the migrations, followed by the properties the
    specification states about them.

    Conventions.
    - A Python [str] is a [string]; the characters are 8-bit, and the
      case mapping and the regular-expression class [\w] are the ASCII ones.
      So is the whitespace that [strip] removes.
    - A [date] is its proleptic Gregorian ordinal ([date.toordinal()]), so
      that the comparison of dates is the comparison of integers.
    - A call that can raise returns an [outcome]; the exception classes the
      code meets are the constructors of [exn].
    - What another module of the repository provides (the chat-platform
      client, the permission checks, the meeting queries of the dashboard)
      is an interface (a [Class]) whose operations the code calls; the
      database and the cache of the framework are modelled by what they
      do to a table and to a dictionary of entries with an expiry. *)

From Stdlib Require Import ZArith NArith Ascii String List Bool Lia.
From stdpp Require Import base decidable option list strings gmap pretty sorting.

(** ** Python values and string helpers *)

Module Py.

Inductive exn : Type :=
| ValidationError (msg : string)
| BadRequest
| HTTPError (status : nat)
| KeyError (key : string)
| DoesNotExist
| MultipleObjectsReturned
| IntegrityError
| RecursionError.

Inductive outcome (A : Type) : Type :=
| Return (a : A)
| Raise (e : exn).
Arguments Return {A} a.
Arguments Raise {A} e.

Definition chars : string -> list ascii := list_ascii_of_string.
Definition str : list ascii -> string := string_of_list_ascii.

(** [bool(s)] for a string: the empty string is falsy. *)
Definition truthy (s : string) : bool := negb (String.eqb s "").

(** [s[n:]] and [s[:n]] for [0 <= n]. *)
Definition slice_from (n : nat) (s : string) : string := str (drop n (chars s)).
Definition slice_to (n : nat) (s : string) : string := str (take n (chars s)).

(** [s.endswith(suffix)] *)
Definition endswith (s suffix : string) : bool :=
  (String.length suffix <=? String.length s)%nat
  && String.eqb (slice_from (String.length s - String.length suffix) s) suffix.

(** [s.removesuffix(suffix)] *)
Definition removesuffix (s suffix : string) : string :=
  if truthy suffix && endswith s suffix
  then slice_to (String.length s - String.length suffix) s
  else s.

(** [c.lower()] on one ASCII character: ["A".."Z"] move to ["a".."z"]. *)
Definition lower_char (c : ascii) : ascii :=
  let n := N_of_ascii c in
  if ((65 <=? n) && (n <=? 90))%N then ascii_of_N (n + 32) else c.

(** [s.lower()] *)
Fixpoint lower (s : string) : string :=
  match s with
  | EmptyString => EmptyString
  | String c s' => String (lower_char c) (lower s')
  end.

(** [needle in s]: is [needle] a substring of [s]. *)
Fixpoint contains (needle s : string) : bool :=
  String.prefix needle s ||
  match s with
  | EmptyString => false
  | String _ s' => contains needle s'
  end.

(** [str(n)] for a non-negative integer. *)
Definition str_of_nat (n : nat) : string := pretty n.

Definition newline : string := String (ascii_of_nat 10) EmptyString.

End Py.

Import Py.

(** A calendar date, as its ordinal. *)
Definition date := Z.

(** ** [class Semester] *)

Module Semester.

Record t : Type := mk {
  id : string;
  name : string;
  is_accepting_new_projects : bool;
  start_date : date;
  end_date : date
}.

(** [Semester.is_active]: [self.start_date <= now <= self.end_date], where
    [now] is [timezone.now().date()]. *)
Definition is_active (now : date) (self : t) : bool :=
  (start_date self <=? now)%Z && (now <=? end_date self)%Z.

End Semester.

(** ** [class User] *)

Module User.

Definition RPI : string := "rpi".
Definition EXTERNAL : string := "external".

Record t : Type := mk {
  id : nat;
  email : string;
  first_name : string;
  last_name : string;
  is_active : bool;
  is_approved : bool;
  role : string;
  rcs_id : string;
  graduation_year : option N;
  discord_user_id : string;
  github_username : string;
  (** [instance._state.adding]: the instance is not in the database yet. *)
  state_adding : bool
}.

Definition set_discord_user_id (v : string) (u : t) : t :=
  mk (id u) (email u) (first_name u) (last_name u) (is_active u)
     (is_approved u) (role u) (rcs_id u) (graduation_year u)
     v (github_username u) (state_adding u).

Definition set_state_adding (v : bool) (u : t) : t :=
  mk (id u) (email u) (first_name u) (last_name u) (is_active u)
     (is_approved u) (role u) (rcs_id u) (graduation_year u)
     (discord_user_id u) (github_username u) v.

(** [User.clean] *)
Definition clean (self : t) : outcome unit :=
  if negb (String.eqb (role self) RPI) && bool_decide (graduation_year self <> None)
  then Raise (ValidationError "Only RPI users can have a graduation year set.")
  else Return tt.

End User.

(** [pre_save_user], the receiver connected to [pre_save] for [User]. *)
Definition pre_save_user (instance : User.t) : User.t :=
  if User.state_adding instance && endswith (User.email instance) "@rpi.edu"
  then User.mk (User.id instance) (User.email instance)
         (User.first_name instance) (User.last_name instance)
         (User.is_active instance)
         true
         User.RPI
         (lower (removesuffix (User.email instance) "@rpi.edu"))
         (User.graduation_year instance)
         (User.discord_user_id instance) (User.github_username instance)
         (User.state_adding instance)
  else instance.

(** ** [class Project], [class Enrollment] and the tables the queries read *)

Module Project.

Record t : Type := mk {
  id : nat;
  name : string;
  owner : option nat;
  is_approved : bool
}.

End Project.

Module Enrollment.

Record t : Type := mk {
  id : nat;
  semester : string;
  user : nat;
  project : option nat;
  credits : Z;
  is_for_pay : bool;
  is_project_lead : bool;
  is_coordinator : bool;
  is_faculty_advisor : bool
}.

(** [class Meta: unique_together = ("semester", "user")] *)
Definition unique_together (e : t) : string * nat := (semester e, user e).

(** [Enrollment.objects.get(user=u, semester=s)] on the rows [rows]. *)
Definition objects_get (rows : list t) (u : nat) (s : string) : outcome t :=
  match filter (fun e => user e = u /\ semester e = s) rows with
  | [] => Raise DoesNotExist
  | [e] => Return e
  | _ :: _ :: _ => Raise MultipleObjectsReturned
  end.

End Enrollment.

Record Database : Type := mkDatabase {
  users : list User.t;
  projects : list Project.t;
  enrollments : list Enrollment.t
}.

(** [self.owned_projects.count()] *)
Definition owned_projects_count (db : Database) (self : User.t) : nat :=
  length (filter (fun p => Project.owner p = Some (User.id self)) (projects db)).

(** [User.can_propose_project(self, semester)]; [semester] may be [None]. *)
Definition can_propose_project (db : Database) (now : date)
    (self : User.t) (semester : option Semester.t) : outcome bool :=
  if negb (User.is_approved self) || negb (User.is_active self) then Return false
  else match semester with
  | None => Return false
  | Some sem =>
    if negb (Semester.is_active now sem)
       || negb (Semester.is_accepting_new_projects sem)
    then Return false
    else if (4 <=? owned_projects_count db self)%nat then Return false
    else match Enrollment.objects_get (enrollments db) (User.id self) (Semester.id sem) with
    | Return e =>
        match Enrollment.project e with
        | Some _ => Return false
        | None => Return true
        end
    | Raise DoesNotExist => Return true
    | Raise e => Raise e
    end
  end.

(** ** The regular expression of [Meeting.presentation_embed_url] *)

Module Re.

(** The class [[-\w]]: a hyphen, a digit, a letter or an underscore. *)
Definition is_word_or_hyphen (c : ascii) : bool :=
  let n := N_of_ascii c in
  ((n =? 45) || ((48 <=? n) && (n <=? 57)) || ((65 <=? n) && (n <=? 90))
   || (n =? 95) || ((97 <=? n) && (n <=? 122)))%N.

(** The greedy repetition [[-\w]*] at the head of [cs]: the characters it
    consumes. *)
Fixpoint greedy (cs : list ascii) : list ascii :=
  match cs with
  | [] => []
  | c :: cs' => if is_word_or_hyphen c then c :: greedy cs' else []
  end.

(** [re.match(r"[-\w]{25,}", cs)]: the greedy repetition has to consume
    25 characters or more. *)
Definition match_here (cs : list ascii) : option (list ascii) :=
  let r := greedy cs in
  if (25 <=? length r)%nat then Some r else None.

(** [re.search(r"[-\w]{25,}", cs)]: the start positions are tried from
    left to right, and [match.group()] is the text matched at the first
    one that succeeds. *)
Fixpoint search (cs : list ascii) : option (list ascii) :=
  match match_here cs with
  | Some r => Some r
  | None =>
      match cs with
      | [] => None
      | _ :: cs' => search cs'
      end
  end.

End Re.

(** ** The chat-platform client, [portal.services.discord]

    The module is not part of the sources at hand.  Its functions are HTTP
    calls: each one is recorded in a log, and what the remote side answers
    (possibly an exception, possibly depending on the calls made so far) is
    given by the interface. *)

Record event_payload : Type := mkPayload {
  ev_name : string;
  ev_scheduled_start_time : string;
  ev_scheduled_end_time : string;
  ev_description : string;
  ev_location : string
}.

Inductive discord_call : Type :=
| CreateServerEvent (p : event_payload)
| UpdateServerEvent (event_id : string) (p : event_payload)
| GetTokens (code : string)
| GetUserInfo (access_token : string).

Class DiscordService : Type := {
  DISCORD_OAUTH2_URL : string;
  create_server_event : list discord_call -> event_payload -> outcome (gmap string string);
  update_server_event : list discord_call -> string -> event_payload -> outcome unit;
  get_tokens : list discord_call -> string -> outcome (gmap string string);
  get_user_info : list discord_call -> string -> outcome (gmap string string)
}.

(** [datetime] values and [datetime.isoformat()]. *)
Class Datetime : Type := {
  datetime : Type;
  isoformat : datetime -> string
}.

(** ** [class Meeting] *)

Module Meeting.
Section WithDatetime.
Context `{Datetime}.

Definition SMALL_GROUP : string := "small_group".
Definition LARGE_GROUP : string := "large_group".
Definition WORKSHOP : string := "workshop".
Definition MENTOR : string := "mentor".
Definition COORDINATOR : string := "coordinator".

Definition TYPE_CHOICES : list (string * string) :=
  [ (SMALL_GROUP, "Small Group");
    (LARGE_GROUP, "Large Group");
    (WORKSHOP, "Workshop");
    (MENTOR, "Mentor");
    (COORDINATOR, "Coordinator") ].

Record t : Type := mk {
  pk : option nat;
  semester : string;
  name : string;
  host : option nat;
  type : string;
  is_published : bool;
  starts_at : datetime;
  ends_at : datetime;
  location : string;
  description_markdown : string;
  presentation_url : string;
  discord_event_id : string
}.

Definition set_pk (k : nat) (m : t) : t :=
  mk (Some k) (semester m) (name m) (host m) (type m) (is_published m)
     (starts_at m) (ends_at m) (location m) (description_markdown m)
     (presentation_url m) (discord_event_id m).

Definition set_discord_event_id (v : string) (m : t) : t :=
  mk (pk m) (semester m) (name m) (host m) (type m) (is_published m)
     (starts_at m) (ends_at m) (location m) (description_markdown m)
     (presentation_url m) v.

(** [Meeting.presentation_embed_url] *)
Definition presentation_embed_url (self : t) : option string :=
  if truthy (presentation_url self)
     && contains "docs.google.com/presentation/d" (presentation_url self)
  then
    match Re.search (chars (presentation_url self)) with
    | Some presentation_id =>
        Some ("https://docs.google.com/presentation/d/"
              +:+ str presentation_id +:+ "/embed")
    | None => None
    end
  else None.

(** [get_type_display()]: the label of the choice, or the stored value
    itself when it is none of the choices. *)
Fixpoint choice_label (choices : list (string * string)) (v : string) : string :=
  match choices with
  | [] => v
  | (value, label) :: rest =>
      if String.eqb value v then label else choice_label rest v
  end.

Definition get_type_display (self : t) : string :=
  choice_label TYPE_CHOICES (type self).

(** [Meeting.display_name]: [self.name or self.get_type_display()] *)
Definition display_name (self : t) : string :=
  if truthy (name self) then name self else get_type_display self.

(** [str(self.pk)] *)
Definition str_pk (self : t) : string :=
  match pk self with
  | Some k => str_of_nat k
  | None => "None"
  end.

Definition indent : string := "        ".

(** The f-string that [sync_discord_event] builds. *)
Definition sync_description (self : t) : string :=
  "**" +:+ get_type_display self +:+ " Meeting**" +:+ newline
  +:+ indent +:+ newline
  +:+ indent +:+ "View details: https://rcos.up.railway.app/meetings/"
      +:+ str_pk self +:+ newline
  +:+ indent
      +:+ (if truthy (presentation_url self)
           then "Slides: " +:+ presentation_url self else "")
      +:+ newline
  +:+ indent.

(** The keyword arguments of both calls to the client; the description is
      the f-string above. *)
Definition sync_payload (self : t) : event_payload :=
  {| ev_name := display_name self;
     ev_scheduled_start_time := isoformat (starts_at self);
     ev_scheduled_end_time := isoformat (ends_at self);
     ev_description := sync_description self;
     ev_location := location self |}.

(** The [Meeting] table, the primary-key sequence and the calls made to
    the chat platform so far (oldest first). *)
Record World : Type := mkWorld {
  meetings : gmap nat t;
  next_pk : nat;
  discord_log : list discord_call
}.

Definition record_call (c : discord_call) (w : World) : World :=
  mkWorld (meetings w) (next_pk w) (discord_log w ++ [c]).

(** The database write of [Model.save]: an instance without a primary key
    takes the next one of the sequence. *)
Definition write_row (self : t) (w : World) : t * World :=
  match pk self with
  | Some k => (self, mkWorld (<[k := self]> (meetings w)) (next_pk w) (discord_log w))
  | None =>
      let k := next_pk w in
      let self' := set_pk k self in
      (self', mkWorld (<[k := self']> (meetings w)) (S k) (discord_log w))
  end.

Context `{DiscordService}.

(** [Meeting.sync_discord_event]; [save] is [self.save]. *)
Definition sync_discord_event
    (save : t -> World -> outcome t * World)
    (self : t) (w : World) : outcome t * World :=
  let kwargs := sync_payload self in
  if negb (truthy (discord_event_id self)) && is_published self then
    let w' := record_call (CreateServerEvent kwargs) w in
    match create_server_event (discord_log w) kwargs with
    | Raise e => (Raise e, w')
    | Return event =>
        match event !! "id" with
        | None => (Raise (KeyError "id"), w')
        | Some i => save (set_discord_event_id i self) w'
        end
    end
  else if truthy (discord_event_id self) && is_published self then
    let w' := record_call (UpdateServerEvent (discord_event_id self) kwargs) w in
    match update_server_event (discord_log w) (discord_event_id self) kwargs with
    | Raise e => (Raise e, w')
    | Return _ => (Return self, w')
    end
  else (Return self, w).

(** [sync_meeting_with_discord_event_on_save], connected to [post_save]. *)
Definition sync_meeting_with_discord_event_on_save
    (save : t -> World -> outcome t * World)
    (instance : t) (w : World) : outcome t * World :=
  sync_discord_event save instance w.

(** [Meeting.save]: the row is written, then [post_save] is sent.  The
    receiver may call [save] again; [depth] is the number of nested calls
    the interpreter still allows. *)
Fixpoint save (depth : nat) (self : t) (w : World) : outcome t * World :=
  match depth with
  | O => (Raise RecursionError, w)
  | S d =>
      let '(self', w') := write_row self w in
      sync_meeting_with_discord_event_on_save (save d) self' w'
  end.

End WithDatetime.
End Meeting.

(** ** Tables and their uniqueness constraints

    A table is the list of its rows.  The statements below are what the
    object-relational mapper sends for [Model.save], [objects.create],
    [delete] (of one row, or of the rows a cascade or a queryset selects)
    and [QuerySet.update] (which is also how [SET_NULL] reaches a table).
    The database refuses, with [IntegrityError], a statement that would
    leave two rows with the same primary key or with the same non-NULL
    values in the columns of a [unique_together] tuple. *)

Module Orm.

Inductive value : Type :=
| VInt (z : Z)
| VStr (s : string).

#[export] Instance value_eq_dec : EqDecision value.
Proof. solve_decision. Defined.

(** A model: the primary key of a row and its columns by name ([None] is
    SQL's NULL). *)
Class Model (row : Type) : Type := {
  pk : row -> nat;
  column : string -> row -> option value
}.

Section Table.
Context {row : Type} `{Model row}.

(** The values of the columns [cols], unless one of them is NULL. *)
Definition index_key (cols : list string) (r : row) : option (list value) :=
  mapM (fun c => column c r) cols.

Definition index_keys (cols : list string) (t : list row) : list (list value) :=
  omap (index_key cols) t.

(** Would [r] collide with a row of [t] on the unique index [cols]? *)
Definition collides (cols : list string) (r : row) (t : list row) : bool :=
  match index_key cols r with
  | Some k => bool_decide (k ∈ index_keys cols t)
  | None => false
  end.

Definition others (r : row) (t : list row) : list row :=
  filter (fun x => pk x <> pk r) t.

Inductive statement : Type :=
| Create (r : row)                       (* INSERT *)
| Save (r : row)                         (* UPDATE by primary key, else INSERT *)
| Delete (k : nat)                       (* DELETE of one row *)
| DeleteWhere (p : row -> bool)          (* cascade, queryset delete *)
| UpdateWhere (p : row -> bool) (f : row -> row).  (* queryset update, SET_NULL *)

Definition replace_row (r : row) (t : list row) : list row :=
  (fun x => if decide (pk x = pk r) then r else x) <$> t.

(** All the indexes of the table hold on [t]. *)
Definition consistent (unique_together : list (list string)) (t : list row) : Prop :=
  NoDup (pk <$> t) /\
  Forall (fun cols => NoDup (index_keys cols t)) unique_together.

#[export] Instance consistent_dec uts t : Decision (consistent uts t).
Proof. unfold consistent. apply _. Defined.

Definition execute (unique_together : list (list string))
    (s : statement) (t : list row) : outcome (list row) :=
  match s with
  | Create r =>
      if bool_decide (pk r ∈ pk <$> t)
         || existsb (fun cols => collides cols r t) unique_together
      then Raise IntegrityError
      else Return (t ++ [r])
  | Save r =>
      if existsb (fun cols => collides cols r (others r t)) unique_together
      then Raise IntegrityError
      else if bool_decide (pk r ∈ pk <$> t)
      then Return (replace_row r t)
      else Return (t ++ [r])
  | Delete k => Return (filter (fun x => pk x <> k) t)
  | DeleteWhere p => Return (filter (fun x => p x = false) t)
  | UpdateWhere p f =>
      let t' := (fun x => if p x then f x else x) <$> t in
      if bool_decide (consistent unique_together t')
      then Return t'
      else Raise IntegrityError
  end.

(** The table after the statement: a refused statement changes nothing. *)
Definition after (unique_together : list (list string))
    (s : statement) (t : list row) : list row :=
  match execute unique_together s t with
  | Return t' => t'
  | Raise _ => t
  end.

End Table.
Arguments statement row : clear implicits.

End Orm.

#[export] Instance enrollment_model : Orm.Model Enrollment.t := {|
  Orm.pk := Enrollment.id;
  Orm.column c e :=
    if String.eqb c "id" then Some (Orm.VInt (Z.of_nat (Enrollment.id e)))
    else if String.eqb c "semester" then Some (Orm.VStr (Enrollment.semester e))
    else if String.eqb c "user" then Some (Orm.VInt (Z.of_nat (Enrollment.user e)))
    else if String.eqb c "project"
      then (fun k => Orm.VInt (Z.of_nat k)) <$> Enrollment.project e
    else if String.eqb c "credits" then Some (Orm.VInt (Enrollment.credits e))
    else None
|}.

(** [Enrollment.Meta.unique_together] *)
Definition enrollment_unique_together : list (list string) :=
  [ ["semester"; "user"] ].

(** ** [class ProjectPitch] and the migrations *)

Module ProjectPitch.

Record t : Type := mk {
  id : nat;
  semester : string;
  project : nat;
  url : string
}.

End ProjectPitch.

#[export] Instance project_pitch_model : Orm.Model ProjectPitch.t := {|
  Orm.pk := ProjectPitch.id;
  Orm.column c r :=
    if String.eqb c "id" then Some (Orm.VInt (Z.of_nat (ProjectPitch.id r)))
    else if String.eqb c "semester" then Some (Orm.VStr (ProjectPitch.semester r))
    else if String.eqb c "project" then Some (Orm.VInt (Z.of_nat (ProjectPitch.project r)))
    else if String.eqb c "url" then Some (Orm.VStr (ProjectPitch.url r))
    else None
|}.

Module Migration.

Inductive operation : Type :=
| AlterField (model_name name : string)
| AddField (model_name name : string)
| RemoveField (model_name name : string)
| AlterModelOptions (name : string)
| AlterUniqueTogether (name : string) (unique_together : list (list string)).

(** [0003_alter_projectpitch_url_and_more] *)
Definition m0003 : list operation :=
  [ AlterField "projectpitch" "url";
    AlterUniqueTogether "projectpitch" [ ["semester"; "project"] ] ].

(** [0016_alter_project_options_alter_smallgroup_options_and_more] *)
Definition m0016 : list operation :=
  [ AlterModelOptions "project";
    AlterModelOptions "smallgroup";
    AlterModelOptions "user";
    AddField "enrollment" "is_mentor" ].

(** [0017_remove_semester_mentor_application_deadline_and_more] *)
Definition m0017 : list operation :=
  [ RemoveField "semester" "mentor_application_deadline";
    AddField "semester" "mentor_application_deadlines" ].

(** The part of the schema state the constraints depend on: the
    [unique_together] option of each model. *)
Definition apply (st : gmap string (list (list string))) (op : operation)
    : gmap string (list (list string)) :=
  match op with
  | AlterUniqueTogether name unique_together => <[name := unique_together]> st
  | _ => st
  end.

Definition migrate (st : gmap string (list (list string)))
    (ops : list operation) : gmap string (list (list string)) :=
  foldl apply st ops.

(** The schema once the three migrations have run, in their order, on the
    schema [st] that the earlier ones left. *)
Definition schema (st : gmap string (list (list string)))
    : gmap string (list (list string)) :=
  migrate (migrate (migrate st m0003) m0016) m0017.

Definition unique_together_of (st : gmap string (list (list string)))
    (model : string) : list (list string) :=
  default [] (schema st !! model).

End Migration.

(** ** The views *)

(** [request.user]: the anonymous user, or the instance the session names. *)
Inductive request_user : Type :=
| AnonymousUser
| LoggedIn (u : User.t).

Definition is_authenticated (ru : request_user) : bool :=
  match ru with
  | LoggedIn _ => true
  | AnonymousUser => false
  end.

(** *** [portal/views/auth.py] *)

Module Auth.

Record request : Type := mkRequest {
  GET : list (string * string);
  user : request_user
}.

(** [QueryDict.get(key)]: the last value the query string gives to [key]. *)
Fixpoint querydict_get (q : list (string * string)) (key : string) : option string :=
  match q with
  | [] => None
  | (k, v) :: q' =>
      match querydict_get q' key with
      | Some v' => Some v'
      | None => if String.eqb k key then Some v else None
      end
  end.

(** What a view hands back: a redirect, the redirect to the login page of
    [login_required], or (as [discord_link_callback] does) an exception
    object used as the return value. *)
Inductive response : Type :=
| Redirect (url : string)
| RedirectToLogin
| Returned (e : exn).

Record World : Type := mkWorld {
  users : gmap nat User.t;
  discord_log : list discord_call
}.

Definition record_call (c : discord_call) (w : World) : World :=
  mkWorld (users w) (discord_log w ++ [c]).

(** [User.save]: [pre_save] is sent, then the row is written. *)
Definition save_user (u : User.t) (w : World) : World :=
  let u' := User.set_state_adding false (pre_save_user u) in
  mkWorld (<[User.id u' := u']> (users w)) (discord_log w).

Section WithDiscord.
Context `{DiscordService}.

(** [start_discord_link], without its decorator. *)
Definition start_discord_link (u : User.t) (w : World) : outcome response * World :=
  (Return (Redirect DISCORD_OAUTH2_URL), w).

(** [discord_link_callback], without its decorator; [u] is
    [request.user]. *)
Definition discord_link_callback (req : request) (u : User.t) (w : World)
    : outcome response * World :=
  match querydict_get (GET req) "code" with
  | None => (Raise BadRequest, w)
  | Some code =>
    if negb (truthy code) then (Raise BadRequest, w)
    else
      let w1 := record_call (GetTokens code) w in
      match get_tokens (discord_log w) code with
      | Raise (HTTPError st) => (Return (Returned (HTTPError st)), w1)
      | Raise e => (Raise e, w1)
      | Return discord_user_tokens =>
        match discord_user_tokens !! "access_token" with
        | None => (Raise (KeyError "access_token"), w1)
        | Some discord_access_token =>
          let w2 := record_call (GetUserInfo discord_access_token) w1 in
          match get_user_info (discord_log w1) discord_access_token with
          | Raise (HTTPError st) => (Return (Returned (HTTPError st)), w2)
          | Raise e => (Raise e, w2)
          | Return discord_user_info =>
            match discord_user_info !! "id" with
            | None => (Raise (KeyError "id"), w2)
            | Some discord_user_id =>
                (Return (Redirect "/"),
                 save_user (User.set_discord_user_id discord_user_id u) w2)
            end
          end
        end
      end
  end.

(** [@login_required] *)
Definition login_required
    (view : request -> User.t -> World -> outcome response * World)
    (req : request) (w : World) : outcome response * World :=
  match user req with
  | LoggedIn u => view req u w
  | AnonymousUser => (Return RedirectToLogin, w)
  end.

(** The two views as the URL configuration sees them. *)
Definition start_discord_link_view : request -> World -> outcome response * World :=
  login_required (fun _ => start_discord_link).

Definition discord_link_callback_view : request -> World -> outcome response * World :=
  login_required discord_link_callback.

End WithDiscord.

End Auth.

(** *** [portal/views/index.py] *)

(** What [IndexView] takes from modules that are not among the sources:
    the permission checks of [portal.checks], the attendance form, and the
    two meeting queries ([Meeting.get_user_queryset(user)
    .filter(ends_at__gte=now).first()] and [Meeting.get_ongoing(user)]). *)
Class IndexServices `{Datetime} : Type := {
  check_result : Type;
  form : Type;
  CheckUserRPI : User.t -> option Semester.t -> check_result;
  CheckUserCanEnroll : User.t -> option Semester.t -> check_result;
  CheckUserCanCreateProject : User.t -> option Semester.t -> check_result;
  SubmitAttendanceForm : form;
  next_meeting : request_user -> datetime -> option Meeting.t;
  get_ongoing : User.t -> option Meeting.t
}.

Module Index.
Section WithServices.
Context `{IndexServices}.

(** The values the template context and the cache hold. *)
Inductive pyval : Type :=
  | PNone
  | PInt (n : nat)
  | PDatetime (d : datetime)
  | PSemester (s : Semester.t)
  | PMeeting (m : Meeting.t)
  | PEnrollment (e : Enrollment.t)
  | PEnrollments (l : list Enrollment.t)
  | PCheck (r : check_result)
  | PForm (f : form).

Definition or_none {A : Type} (inj : A -> pyval) (o : option A) : pyval :=
  match o with
  | Some a => inj a
  | None => PNone
  end.

(** [django.core.cache.cache]: each entry has the time, in seconds, at
    which it expires; [clock] is the time of the call. *)
Definition cache_get (c : gmap string (pyval * Z)) (clock : Z) (key : string)
    : option pyval :=
  match c !! key with
  | Some (v, expires) => if (clock <? expires)%Z then Some v else None
  | None => None
  end.

Definition cache_get_or_set (c : gmap string (pyval * Z)) (clock : Z)
    (key : string) (default : pyval) (timeout : Z)
    : pyval * gmap string (pyval * Z) :=
  match cache_get c clock key with
  | Some v => (v, c)
  | None => (default, <[key := (default, (clock + timeout)%Z)]> c)
  end.

(** [cache.get("active_semester")]; the entry, when there is one, is a
    [Semester]. *)
Definition cached_active_semester (c : gmap string (pyval * Z)) (clock : Z)
    : option Semester.t :=
  match cache_get c clock "active_semester" with
  | Some (PSemester s) => Some s
  | _ => None
  end.

Definition first_name_of (db : Database) (uid : nat) : string :=
  match filter (fun u => User.id u = uid) (users db) with
  | u :: _ => User.first_name u
  | [] => ""
  end.

(** [order_by('-is_project_lead', '-credits', '-user__first_name')]:
    does [e1] come no later than [e2]? *)
Definition team_order (db : Database) (e1 e2 : Enrollment.t) : bool :=
  if negb (eqb (Enrollment.is_project_lead e1) (Enrollment.is_project_lead e2))
  then Enrollment.is_project_lead e1
  else if negb (Enrollment.credits e1 =? Enrollment.credits e2)%Z
  then (Enrollment.credits e2 <? Enrollment.credits e1)%Z
  else String.leb (first_name_of db (Enrollment.user e2))
                  (first_name_of db (Enrollment.user e1)).

(** [self.request.user.enrollments.filter(semester=active_semester).first()] *)
Definition enrollment_of (db : Database) (u : User.t) (sem : Semester.t)
    : option Enrollment.t :=
  head (filter (fun e => Enrollment.user e = User.id u
                         /\ Enrollment.semester e = Semester.id sem)
               (enrollments db)).

(** [enrollment.project.enrollments.filter(semester=active_semester)
    .select_related("user").order_by(...)] *)
Definition project_team_enrollments (db : Database) (p : nat) (sem : Semester.t)
    : list Enrollment.t :=
  merge_sort (fun e1 e2 => Is_true (team_order db e1 e2))
    (filter (fun e => Enrollment.project e = Some p
                      /\ Enrollment.semester e = Semester.id sem)
            (enrollments db)).

(** [Enrollment.objects.filter(Q(is_faculty_advisor=True) |
    Q(is_coordinator=True), semester=active_semester)]; with [None] for
    the semester the filter is [semester IS NULL], which no row meets. *)
Definition semester_admins (db : Database) (active_semester : option Semester.t)
    : list Enrollment.t :=
  match active_semester with
  | Some sem =>
      filter (fun e => (Enrollment.is_faculty_advisor e = true
                        \/ Enrollment.is_coordinator e = true)
                       /\ Enrollment.semester e = Semester.id sem)
             (enrollments db)
  | None => []
  end.

Definition one_day : Z := 60 * 60 * 24.

(** [IndexView.get_context_data]; [base] is the context that the same
    method of the parent class returns. *)
Definition get_context_data (base : gmap string pyval) (user : request_user)
    (db : Database) (now : datetime) (clock : Z) (cache : gmap string (pyval * Z))
    : gmap string pyval * gmap string (pyval * Z) :=
  let data := base in
  let active_semester := cached_active_semester cache clock in
  let data := <["next_meeting" := or_none PMeeting (next_meeting user now)]> data in
  match user with
  | LoggedIn u =>
      let data := <["now" := PDatetime now]> data in
      let data := <["ongoing_meeting" := or_none PMeeting (get_ongoing u)]> data in
      let data := <["is_user_rpi_check" := PCheck (CheckUserRPI u None)]> data in
      let data := <["can_enroll_check" :=
                      PCheck (CheckUserCanEnroll u active_semester)]> data in
      let data := <["can_create_project_check" :=
                      PCheck (CheckUserCanCreateProject u active_semester)]> data in
      let enrollment :=
        match active_semester with
        | Some sem => enrollment_of db u sem
        | None => None
        end in
      let data := <["enrollment" := or_none PEnrollment enrollment]> data in
      let team :=
        match enrollment, active_semester with
        | Some e, Some sem =>
            match Enrollment.project e with
            | Some p => project_team_enrollments db p sem
            | None => []
            end
        | _, _ => []
        end in
      let data := <["project_team_enrollments" := PEnrollments team]> data in
      (data, cache)
  | AnonymousUser =>
      let data := <["submit_attendance_form" := PForm SubmitAttendanceForm]> data in
      let data := <["ongoing_meeting" := PNone]> data in
      let '(v, cache) :=
        cache_get_or_set cache clock "enrollment_count"
          (PInt (length (enrollments db))) one_day in
      let data := <["enrollment_count" := v]> data in
      let '(v, cache) :=
        cache_get_or_set cache clock "project_count"
          (PInt (length (projects db))) one_day in
      let data := <["project_count" := v]> data in
      let '(v, cache) :=
        cache_get_or_set cache clock "active_semester_admins"
          (PEnrollments (semester_admins db active_semester)) one_day in
      let data := <["active_semester_admins" := v]> data in
      (data, cache)
  end.

End WithServices.
End Index.

(** ** What the two constraints promise *)

(** At most one enrollment for every user and semester. *)
Definition enrollment_unique (t : list Enrollment.t) : Prop :=
  forall (u : nat) (s : string),
    length (filter (fun e => Enrollment.user e = u /\ Enrollment.semester e = s) t) <= 1.

Definition enrollment_key (e : Enrollment.t) : nat * string :=
  (Enrollment.user e, Enrollment.semester e).

Definition pitch_key (r : ProjectPitch.t) : string * nat :=
  (ProjectPitch.semester r, ProjectPitch.project r).

(** At most one pitch for every semester and project. *)
Definition pitch_unique (t : list ProjectPitch.t) : Prop :=
  forall (s : string) (p : nat),
    length (filter (fun r => ProjectPitch.semester r = s /\ ProjectPitch.project r = p) t) <= 1.

(** ** Runs of characters and substrings *)

(** [needle] occurs in [s]. *)
Definition is_substring (needle s : string) : Prop :=
  exists before after, s = before +:+ needle +:+ after.

(** All the characters of [r] are word characters or hyphens. *)
Definition is_run (r : list ascii) : Prop :=
  Forall (fun c => Re.is_word_or_hyphen c = true) r.

(** [cs] has 25 or more such characters in a row somewhere. *)
Definition has_long_run (cs : list ascii) : Prop :=
  exists before r after,
    cs = before ++ r ++ after /\ is_run r /\ 25 <= length r.

(** [r] is the first run of 25 or more such characters in [cs]: a run that
    cannot be extended on either side, with no 25 such characters in a row
    before it. *)
Definition first_long_run (cs r : list ascii) : Prop :=
  exists before after,
    cs = before ++ r ++ after
    /\ is_run r /\ 25 <= length r
    /\ (forall b c, before = b ++ [c] -> Re.is_word_or_hyphen c = false)
    /\ (forall c a, after = c :: a -> Re.is_word_or_hyphen c = false)
    /\ (forall b r' a, before = b ++ r' ++ a -> is_run r' -> length r' < 25).

(** ** The error of [User.clean] *)

Definition graduation_year_error : exn :=
  ValidationError "Only RPI users can have a graduation year set.".

(** ** Entries that go through the cache *)

Section IndexNotions.
Context `{IndexServices}.

(** The context entry [key] went through the cache: a live entry is
    served and left alone; otherwise [fresh] is served and stored, to
    expire 86400 seconds (24 hours) after [clock]. *)
Definition served_from_cache
    (cache : gmap string (Index.pyval * Z)) (clock : Z)
    (data : gmap string Index.pyval) (cache' : gmap string (Index.pyval * Z))
    (key : string) (fresh : Index.pyval) : Prop :=
  match Index.cache_get cache clock key with
  | Some v => data !! key = Some v /\ cache' !! key = cache !! key
  | None => data !! key = Some fresh /\ cache' !! key = Some (fresh, (clock + 86400)%Z)
  end.
End IndexNotions.

(** ** Sample data used by the examples below *)

Definition smith : User.t :=
  User.mk 7 "Smith1@rpi.edu" "Jo" "Smith" true false User.EXTERNAL "" None "" "" true.

Definition alum : User.t :=
  User.mk 3 "pat@example.org" "Pat" "Lee" true true User.EXTERNAL "" (Some 2024%N) "" "" false.

(** A clock whose datetimes are already in ISO format, and a chat platform
    that numbers the events it creates and accepts every call. *)
Definition sample_datetime : Datetime := {|
  datetime := string;
  isoformat d := d
|}.

Definition sample_discord : DiscordService := {|
  DISCORD_OAUTH2_URL := "https://discord.com/oauth2/authorize";
  create_server_event log _ := Return {[ "id" := "9" +:+ str_of_nat (length log) ]};
  update_server_event _ _ _ := Return tt;
  get_tokens _ code :=
    if String.eqb code "expired" then Raise (HTTPError 400)
    else Return {[ "access_token" := "token-" +:+ code ]};
  get_user_info _ token := Return {[ "id" := "user-of-" +:+ token ]}
|}.

Definition workshop (published : bool) (event_id : string)
    : @Meeting.t sample_datetime :=
  @Meeting.mk sample_datetime None "202301" "" None Meeting.WORKSHOP published
    "2023-02-03T16:00:00+00:00" "2023-02-03T17:50:00+00:00" "DCC 318" ""
    "" event_id.

Definition empty_world : @Meeting.World sample_datetime :=
  @Meeting.mkWorld sample_datetime ∅ 1 [].

Definition linked_user : User.t :=
  User.mk 12 "lee@example.org" "Pat" "Lee" true true User.EXTERNAL "" None "" "" false.

Definition auth_world : Auth.World :=
  Auth.mkWorld {[ 12 := linked_user ]} [].

Definition spring : Semester.t :=
  Semester.mk "202301" "Spring 2023" true 738528%Z 738645%Z.

Definition closed_spring : Semester.t :=
  Semester.mk "202301" "Spring 2023" false 738528%Z 738645%Z.

Definition member : User.t :=
  User.mk 5 "kim@rpi.edu" "Kim" "Roe" true true User.RPI "kim" (Some 2025%N) "" "" false.

Definition telescope : Project.t := Project.mk 40 "Telescope" (Some 12) true.

Definition member_enrollment : Enrollment.t :=
  Enrollment.mk 1 "202301" 5 (Some 40) 4%Z false false false false.

Definition lead_enrollment : Enrollment.t :=
  Enrollment.mk 2 "202301" 12 (Some 40) 0%Z false true true false.

Definition free_enrollment : Enrollment.t :=
  Enrollment.mk 3 "202301" 7 None 1%Z false false false false.

Definition sample_db : Database :=
  mkDatabase [smith; alum; member; linked_user] [telescope]
    [member_enrollment; lead_enrollment; free_enrollment].

Definition telescope_pitch : ProjectPitch.t :=
  ProjectPitch.mk 1 "202301" 40 "https://example.org/telescope".

Definition second_pitch : ProjectPitch.t :=
  ProjectPitch.mk 2 "202301" 40 "https://example.org/again".

Definition slides (url : string) : @Meeting.t sample_datetime :=
  @Meeting.mk sample_datetime (Some 3) "202301" "Kickoff" None Meeting.LARGE_GROUP true
    "2023-01-13T21:00:00+00:00" "2023-01-13T22:50:00+00:00" "DCC 308" "" url "".

Definition sample_index : @IndexServices sample_datetime := {|
  check_result := bool;
  form := unit;
  CheckUserRPI u _ := String.eqb (User.role u) User.RPI;
  CheckUserCanEnroll u semester := User.is_approved u && bool_decide (is_Some semester);
  CheckUserCanCreateProject u semester := User.is_approved u && bool_decide (is_Some semester);
  SubmitAttendanceForm := tt;
  next_meeting _ _ := None;
  get_ongoing _ := None
|}.

(** ** More of Python's [str]: [strip], [join], whitespace *)

Module PyText.

(** [c.isspace()] on an ASCII character: tab to carriage return, the four
    separators [0x1c..0x1f], and the space. *)
Definition is_space (c : ascii) : bool :=
  let n := N_of_ascii c in
  (((9 <=? n) && (n <=? 13)) || ((28 <=? n) && (n <=? 31)) || (n =? 32))%N.

(** [s.lstrip()] on the characters. *)
Fixpoint lstrip_chars (cs : list ascii) : list ascii :=
  match cs with
  | [] => []
  | c :: cs' => if is_space c then lstrip_chars cs' else cs
  end.

(** [s.rstrip()] on the characters. *)
Definition rstrip_chars (cs : list ascii) : list ascii :=
  reverse (lstrip_chars (reverse cs)).

(** [s.strip()] *)
Definition strip (s : string) : string :=
  str (rstrip_chars (lstrip_chars (chars s))).

(** [sep.join(chunks)] *)
Fixpoint join (sep : string) (chunks : list string) : string :=
  match chunks with
  | [] => ""
  | [x] => x
  | x :: rest => x +:+ sep +:+ join sep rest
  end.

(** [x or y] on strings. *)
Definition or_else (x y : string) : string := if truthy x then x else y.

(** [s[0]]; the code only takes it of a non-empty string. *)
Definition first_char (s : string) : string :=
  match s with
  | EmptyString => ""
  | String c _ => String c EmptyString
  end.

(** [str(n)] for a stored non-negative integer. *)
Definition str_of_N (n : N) : string := pretty n.

End PyText.

Import PyText.

(** ** The derived properties of [User] *)

Module UserProperties.

(** [User.full_name] *)
Definition full_name (self : User.t) : string :=
  or_else (strip (User.first_name self +:+ " " +:+ User.last_name self))
          "Unnamed User".

(** The chunks that [display_name] collects before the fall-back to the
    email. *)
Definition display_chunks (self : User.t) : list string :=
  let chunks := [] in
  let chunks :=
    if truthy (User.first_name self) then chunks ++ [User.first_name self] else chunks in
  let chunks :=
    if truthy (User.last_name self)
    then chunks ++ [first_char (User.last_name self)] else chunks in
  if String.eqb (User.role self) User.RPI then
    let chunks :=
      match User.graduation_year self with
      | Some y =>
          if (y =? 0)%N then chunks
          else chunks ++ ["'" +:+ slice_from 2 (str_of_N y)]
      | None => chunks
      end in
    if (0 <? length chunks)%nat && truthy (User.rcs_id self)
    then chunks ++ ["(" +:+ User.rcs_id self +:+ ")"]
    else if truthy (User.rcs_id self) then chunks ++ [User.rcs_id self]
    else chunks
  else chunks.

(** [User.display_name] *)
Definition display_name (self : User.t) : string :=
  let chunks := display_chunks self in
  let chunks :=
    if (length chunks =? 0)%nat then chunks ++ [User.email self] else chunks in
  strip (join " " chunks).

(** [User.is_setup]: the value of the chained [and], that is the first
    empty field, or the last field. *)
Definition is_setup (self : User.t) : string :=
  if negb (truthy (User.first_name self)) then User.first_name self
  else if negb (truthy (User.last_name self)) then User.last_name self
  else if negb (truthy (User.github_username self)) then User.github_username self
  else User.discord_user_id self.

(** The same user with other values in the two fields kept for RPI users. *)
Definition with_rpi_fields (rcs_id : string) (graduation_year : option N)
    (u : User.t) : User.t :=
  User.mk (User.id u) (User.email u) (User.first_name u) (User.last_name u)
    (User.is_active u) (User.is_approved u) (User.role u) rcs_id graduation_year
    (User.discord_user_id u) (User.github_username u) (User.state_adding u).

End UserProperties.

(** ** [class SmallGroup] *)

Module SmallGroup.

Record t : Type := mk {
  id : nat;
  semester : string;
  name : string;
  location : string;
  discord_category_id : string;
  discord_role_id : string
}.

(** [SmallGroup.display_name] *)
Definition display_name (self : t) : string :=
  or_else (name self) (or_else (location self) "Unnamed Small Group").

End SmallGroup.

(** ** The colour of a meeting *)

Module MeetingDisplay.
Section WithDatetime.
Context `{Datetime}.

Definition TYPE_COLORS : list (string * string) :=
  [ (Meeting.SMALL_GROUP, "red");
    (Meeting.LARGE_GROUP, "blue");
    (Meeting.WORKSHOP, "gold");
    (Meeting.MENTOR, "purple");
    (Meeting.COORDINATOR, "orange") ].

(** [d[key]] for [key in d], on a dictionary given by its items. *)
Fixpoint dict_get (d : list (string * string)) (key : string) : option string :=
  match d with
  | [] => None
  | (k, v) :: rest => if String.eqb k key then Some v else dict_get rest key
  end.

(** [Meeting.color] *)
Definition color (self : Meeting.t) : string :=
  match dict_get TYPE_COLORS (Meeting.type self) with
  | Some c => c
  | None => "grey"
  end.

End WithDatetime.
End MeetingDisplay.

(** A string has no whitespace at either end. *)
Definition trimmed (s : string) : Prop :=
  (forall c rest, chars s = c :: rest -> is_space c = false)
  /\ (forall front c, chars s = front ++ [c] -> is_space c = false).

(** A string is made of whitespace only (or is empty). *)
Definition blank (s : string) : Prop :=
  Forall (fun c => is_space c = true) (chars s).

Definition nameless : User.t :=
  User.mk 1 " x@example.org" "" "" true true User.RPI "" (Some 0%N) "" "" false.

Definition blank_named : User.t :=
  User.mk 2 "y@example.org" " " "" true true User.EXTERNAL "" None "" "" false.

Import PyText.

(** ** The queries of [Semester], [User] and [Project] *)

#[export] Instance semester_eq_dec : EqDecision Semester.t.
Proof. solve_decision. Defined.

Module Queries.

(** [Semester.Meta.ordering = ["-start_date"]]: [s1] may come before [s2]. *)
Definition newest_first (s1 s2 : Semester.t) : Prop :=
  (Semester.start_date s2 <= Semester.start_date s1)%Z.

#[global] Instance newest_first_dec s1 s2 : Decision (newest_first s1 s2).
Proof. unfold newest_first. apply _. Defined.

(** [Semester.get_active()], with [now] for [timezone.now().date()]. *)
Definition get_active (semesters : list Semester.t) (now : date) : option Semester.t :=
  head (merge_sort newest_first
          (filter (fun s => (Semester.start_date s <= now)%Z
                            /\ (now <= Semester.end_date s)%Z) semesters)).

(** [self.enrollments], the reverse side of [Enrollment.semester]. *)
Definition semester_enrollments (rows : list Enrollment.t) (self : Semester.t)
    : list Enrollment.t :=
  filter (fun e => Enrollment.semester e = Semester.id self) rows.

(** [Semester.enrollment_count] *)
Definition enrollment_count (rows : list Enrollment.t) (self : Semester.t) : nat :=
  length (semester_enrollments rows self).

(** [Semester.project_count]: [distinct("project")] keeps one row for each
    value of the column, NULL being one of the values. *)
Definition project_count (rows : list Enrollment.t) (self : Semester.t) : nat :=
  length (remove_dups (Enrollment.project <$> semester_enrollments rows self)).

(** [order_by("is_faculty_advisor")]: false sorts before true. *)
Definition advisors_last (e1 e2 : Enrollment.t) : Prop :=
  Enrollment.is_faculty_advisor e1 = true -> Enrollment.is_faculty_advisor e2 = true.

#[global] Instance advisors_last_dec e1 e2 : Decision (advisors_last e1 e2).
Proof. unfold advisors_last. apply _. Defined.

(** [Semester.get_admins()] *)
Definition get_admins (rows : list Enrollment.t) (self : Semester.t)
    : list Enrollment.t :=
  merge_sort advisors_last
    (filter (fun e => Enrollment.is_coordinator e = true
                      \/ Enrollment.is_faculty_advisor e = true)
            (semester_enrollments rows self)).

(** [Semester.objects.filter(enrollments__...=...)]: the join of the
    semesters with the enrollments that [selected] keeps, one row for each
    pair. *)
Definition semesters_joined (selected : Enrollment.t -> bool)
    (semesters : list Semester.t) (rows : list Enrollment.t) : list Semester.t :=
  s ← semesters;
  (fun _ => s) <$> filter (fun e => Enrollment.semester e = Semester.id s
                                    /\ selected e = true) rows.

(** [Semester.objects.filter(...).order_by("-start_date").distinct()] *)
Definition semesters_of (selected : Enrollment.t -> bool)
    (semesters : list Semester.t) (rows : list Enrollment.t) : list Semester.t :=
  merge_sort newest_first (remove_dups (semesters_joined selected semesters rows)).

(** [User.get_active_semesters()] *)
Definition user_get_active_semesters (semesters : list Semester.t)
    (rows : list Enrollment.t) (self : User.t) : list Semester.t :=
  semesters_of (fun e => bool_decide (Enrollment.user e = User.id self)) semesters rows.

(** [Project.get_active_semesters()] *)
Definition project_get_active_semesters (semesters : list Semester.t)
    (rows : list Enrollment.t) (self : Project.t) : list Semester.t :=
  semesters_of (fun e => bool_decide (Enrollment.project e = Some (Project.id self)))
    semesters rows.

(** [Project.get_semester_count()]: the project is joined with its
    enrollments, and the distinct semester ids are counted. *)
Definition get_semester_count (projects : list Project.t)
    (rows : list Enrollment.t) (self : Project.t) : nat :=
  length (remove_dups
    (p ← filter (fun p => Project.id p = Project.id self) projects;
     Enrollment.semester <$>
       filter (fun e => Enrollment.project e = Some (Project.id p)) rows)).

(** Without an ordering of its own, a queryset is ordered by primary key
    for [first()]. *)
Definition by_pk (r1 r2 : ProjectPitch.t) : Prop :=
  ProjectPitch.id r1 <= ProjectPitch.id r2.

#[global] Instance by_pk_dec r1 r2 : Decision (by_pk r1 r2).
Proof. unfold by_pk. apply _. Defined.

(** [Project.is_seeking_members(semester)] *)
Definition is_seeking_members (pitches : list ProjectPitch.t)
    (self : Project.t) (semester : Semester.t) : option ProjectPitch.t :=
  head (merge_sort by_pk
          (filter (fun r => ProjectPitch.semester r = Semester.id semester
                            /\ ProjectPitch.project r = Project.id self)
                  (filter (fun r => ProjectPitch.project r = Project.id self) pitches))).

End Queries.

Definition fall : Semester.t :=
  Semester.mk "202309" "Fall 2023" false 738765%Z 738870%Z.

Definition advisor_a : Enrollment.t :=
  Enrollment.mk 8 "202301" 30 None 0%Z false false false true.

Definition advisor_b : Enrollment.t :=
  Enrollment.mk 9 "202301" 31 None 0%Z false false true true.

Import PyText.

(** A chat platform that answers every creation with an empty id, and one
    that refuses every creation. *)
Definition forgetful_discord : DiscordService := {|
  DISCORD_OAUTH2_URL := "https://discord.com/oauth2/authorize";
  create_server_event _ _ := Return {[ "id" := "" ]};
  update_server_event _ _ _ := Return tt;
  get_tokens _ _ := Raise (HTTPError 401);
  get_user_info _ _ := Raise (HTTPError 401)
|}.

Definition failing_discord : DiscordService := {|
  DISCORD_OAUTH2_URL := "https://discord.com/oauth2/authorize";
  create_server_event _ _ := Raise (HTTPError 503);
  update_server_event _ _ _ := Raise (HTTPError 503);
  get_tokens _ code := Return {[ "access_token" := code ]};
  get_user_info _ _ := Raise (HTTPError 503)
|}.

Import PyText.

(** *** [impersonate] *)

Module Impersonate.

(** [request.GET[key]]: the last value given to [key]; a missing key raises
    [MultiValueDictKeyError], a [KeyError]. *)
Definition querydict_getitem (q : list (string * string)) (key : string)
    : outcome string :=
  match Auth.querydict_get q key with
  | Some v => Return v
  | None => Raise (KeyError key)
  end.

(** [User.objects.get(email=email)] *)
Definition get_by_email (users : list User.t) (email : string) : outcome User.t :=
  match filter (fun u => User.email u = email) users with
  | [] => Raise DoesNotExist
  | [u] => Return u
  | _ :: _ :: _ => Raise MultipleObjectsReturned
  end.

(** [request.user.is_superuser]; [is_superuser] reads the column of that
    name, which [AbstractUser] declares, by primary key.  The anonymous
    user is never a superuser. *)
Definition requester_is_superuser (is_superuser : nat -> bool)
    (ru : request_user) : bool :=
  match ru with
  | LoggedIn u => is_superuser (User.id u)
  | AnonymousUser => false
  end.

(** [impersonate]; [DEBUG] is [settings.DEBUG].  The second component is the
    user of the session after the call: [login] replaces it. *)
Definition impersonate (DEBUG : bool) (is_superuser : nat -> bool)
    (users : list User.t) (req : Auth.request)
    : outcome Auth.response * request_user :=
  if DEBUG || requester_is_superuser is_superuser (Auth.user req) then
    match querydict_getitem (Auth.GET req) "email" with
    | Raise e => (Raise e, Auth.user req)
    | Return email =>
        match get_by_email users email with
        | Raise e => (Raise e, Auth.user req)
        | Return user => (Return (Auth.Redirect "/"), LoggedIn user)
        end
    end
  else (Return (Auth.Redirect "/"), Auth.user req).

End Impersonate.

Import PyText.

Import PyText.

(** ** Deleting a project or a user

    What [on_delete] declares for the foreign keys of the tables at hand:
    [Enrollment.project] and [Project.owner] are [SET_NULL];
    [Enrollment.user], [ProjectPitch.project] are [CASCADE]. *)

Module Deletion.

Definition clear_project (e : Enrollment.t) : Enrollment.t :=
  Enrollment.mk (Enrollment.id e) (Enrollment.semester e) (Enrollment.user e) None
    (Enrollment.credits e) (Enrollment.is_for_pay e) (Enrollment.is_project_lead e)
    (Enrollment.is_coordinator e) (Enrollment.is_faculty_advisor e).

Definition clear_owner (p : Project.t) : Project.t :=
  Project.mk (Project.id p) (Project.name p) None (Project.is_approved p).

(** [project.delete()] for the project of primary key [pid]. *)
Definition delete_project (pid : nat) (db : Database) : Database :=
  mkDatabase (users db)
    (filter (fun p => Project.id p <> pid) (projects db))
    ((fun e => if decide (Enrollment.project e = Some pid) then clear_project e else e)
       <$> enrollments db).

(** The same deletion, on the pitches. *)
Definition delete_project_pitches (pid : nat) (pitches : list ProjectPitch.t)
    : list ProjectPitch.t :=
  filter (fun r => ProjectPitch.project r <> pid) pitches.

(** [user.delete()] for the user of primary key [uid]. *)
Definition delete_user (uid : nat) (db : Database) : Database :=
  mkDatabase
    (filter (fun u => User.id u <> uid) (users db))
    ((fun p => if decide (Project.owner p = Some uid) then clear_owner p else p)
       <$> projects db)
    (filter (fun e => Enrollment.user e <> uid) (enrollments db)).

End Deletion.

Import PyText.

(** ** [class UserManager] *)

Module UserManager.

(** The values of the keyword arguments. *)
Inductive field_value : Type :=
| FNone
| FBool (b : bool)
| FStr (s : string).

(** What a method of the manager does: it builds an instance, saves it and
    returns it, or raises [ValueError] before anything is built. *)
Inductive result (A : Type) : Type :=
| Created (a : A)
| ValueError (msg : string).
Arguments Created {A} a.
Arguments ValueError {A} msg.

(** What the instance that is saved and returned is built from: the email
    and the keyword arguments given to [self.model], and the password given
    to [set_password].  What [save] then does to the tables is the business
    of [User.save]; it does not change these. *)
Record instance : Type := mkInstance {
  email : string;
  raw_password : option string;
  fields : gmap string field_value
}.

(** [d.setdefault(key, value)] *)
Definition setdefault (key : string) (value : field_value)
    (d : gmap string field_value) : gmap string field_value :=
  match d !! key with
  | Some _ => d
  | None => <[key := value]> d
  end.

(** [d.get(key) is not True] *)
Definition is_not_True (d : gmap string field_value) (key : string) : bool :=
  match d !! key with
  | Some (FBool true) => false
  | _ => true
  end.

Section WithNormalize.
(** [BaseUserManager.normalize_email], of the framework. *)
Context (normalize_email : string -> string).

(** [UserManager._create_user] *)
Definition _create_user (email : option string) (password : option string)
    (extra_fields : gmap string field_value) : result instance :=
  match email with
  | None => ValueError "The given email must be set"
  | Some email =>
      if negb (truthy email) then ValueError "The given email must be set"
      else
        let email := normalize_email email in
        Created (mkInstance email password extra_fields)
  end.

(** [UserManager.create_user] *)
Definition create_user (email : option string) (password : option string)
    (extra_fields : gmap string field_value) : result instance :=
  let extra_fields := setdefault "is_staff" (FBool false) extra_fields in
  let extra_fields := setdefault "is_superuser" (FBool false) extra_fields in
  _create_user email password extra_fields.

(** [UserManager.create_superuser] *)
Definition create_superuser (email : option string) (password : option string)
    (extra_fields : gmap string field_value) : result instance :=
  let extra_fields := setdefault "is_staff" (FBool true) extra_fields in
  let extra_fields := setdefault "is_superuser" (FBool true) extra_fields in
  if is_not_True extra_fields "is_staff"
  then ValueError "Superuser must have is_staff=True."
  else if is_not_True extra_fields "is_superuser"
  then ValueError "Superuser must have is_superuser=True."
  else _create_user email password extra_fields.

End WithNormalize.
End UserManager.

(** ** The user table

    [email] and [rcs_id] are declared [unique=True]; [rcs_id] is a
    [CharField] without [null=True], so a blank one is stored as the empty
    string. *)

#[export] Instance user_model : Orm.Model User.t := {|
  Orm.pk := User.id;
  Orm.column c u :=
    if String.eqb c "id" then Some (Orm.VInt (Z.of_nat (User.id u)))
    else if String.eqb c "email" then Some (Orm.VStr (User.email u))
    else if String.eqb c "rcs_id" then Some (Orm.VStr (User.rcs_id u))
    else if String.eqb c "role" then Some (Orm.VStr (User.role u))
    else None
|}.

Definition user_unique : list (list string) := [ ["email"]; ["rcs_id"] ].

(** [User.save] of an instance that is being added: [pre_save] is sent,
    then the row is inserted. *)
Definition insert_user (u : User.t) (t : list User.t) : outcome (list User.t) :=
  Orm.execute user_unique (Orm.Create (pre_save_user u)) t.

Definition second_external : User.t :=
  User.mk 21 "sam@example.org" "Sam" "Poe" true false User.EXTERNAL "" None "" "" true.

Definition duplicate_enrollment : Enrollment.t :=
  Enrollment.mk 11 "202301" 7 (Some 40) 4%Z false false false false.

Import PyText.

(** * Properties *)

(** ** Strings *)

Section StringFacts.
Implicit Types s p suffix : string.

Lemma chars_length s : length (chars s) = String.length s.
Proof. induction s; simpl; congruence. Qed.

Lemma chars_app s1 s2 : chars (s1 +:+ s2) = chars s1 ++ chars s2.
Proof.
  induction s1 as [|a s1 IH]; [reflexivity|].
  change (a :: chars (s1 +:+ s2) = a :: (chars s1 ++ chars s2)).
  by rewrite IH.
Qed.

Lemma str_chars s : str (chars s) = s.
Proof. apply string_of_list_ascii_of_string. Qed.

Lemma chars_str cs : chars (str cs) = cs.
Proof. apply list_ascii_of_string_of_list_ascii. Qed.

Lemma str_app cs1 cs2 : str (cs1 ++ cs2) = str cs1 +:+ str cs2.
Proof.
  induction cs1 as [|a cs1 IH]; [reflexivity|].
  change (String a (str (cs1 ++ cs2)) = String a (str cs1 +:+ str cs2)).
  by rewrite IH.
Qed.

Lemma string_length_app s1 s2 :
  String.length (s1 +:+ s2) = String.length s1 + String.length s2.
Proof. rewrite <- !chars_length, chars_app. apply length_app. Qed.

Lemma slice_split n s : s = slice_to n s +:+ slice_from n s.
Proof.
  unfold slice_to, slice_from.
  rewrite <- str_app, take_drop. symmetry. apply str_chars.
Qed.

Lemma slice_from_app p suffix :
  slice_from (String.length (p +:+ suffix) - String.length suffix) (p +:+ suffix) = suffix.
Proof.
  unfold slice_from. rewrite string_length_app, chars_app.
  replace (String.length p + String.length suffix - String.length suffix)
    with (length (chars p)) by (rewrite chars_length; lia).
  rewrite drop_app_length. apply str_chars.
Qed.

Lemma slice_to_app p suffix :
  slice_to (String.length (p +:+ suffix) - String.length suffix) (p +:+ suffix) = p.
Proof.
  unfold slice_to. rewrite string_length_app, chars_app.
  replace (String.length p + String.length suffix - String.length suffix)
    with (length (chars p)) by (rewrite chars_length; lia).
  rewrite take_app_length. apply str_chars.
Qed.

(** [s.endswith(suffix)] holds exactly when [s] is some text followed by
    [suffix]. *)
Lemma endswith_spec s suffix :
  endswith s suffix = true <-> exists p, s = p +:+ suffix.
Proof.
  unfold endswith. rewrite andb_true_iff, Nat.leb_le, String.eqb_eq. split.
  - intros [_ Hs]. exists (slice_to (String.length s - String.length suffix) s).
    etrans; [apply (slice_split (String.length s - String.length suffix))|].
    by rewrite Hs.
  - intros [p ->]. split.
    + rewrite string_length_app. lia.
    + apply slice_from_app.
Qed.

Lemma truthy_false s : truthy s = false <-> s = "".
Proof.
  unfold truthy. rewrite negb_false_iff. apply String.eqb_eq.
Qed.

Lemma removesuffix_app p suffix : removesuffix (p +:+ suffix) suffix = p.
Proof.
  unfold removesuffix.
  destruct (truthy suffix) eqn:Ht; simpl.
  - rewrite (proj2 (endswith_spec _ _)) by eauto. apply slice_to_app.
  - apply truthy_false in Ht as ->.
    rewrite <- (str_chars (p +:+ "")), chars_app, app_nil_r. apply str_chars.
Qed.
End StringFacts.

(** ** The pre-save hook of [User] *)



(** ** [User.clean] *)

(** C4. [User.clean] raises exactly when the role is not RPI and the
    graduation year is set, and what it raises is the validation error; for
    a user with the RPI role it returns, whatever the graduation year. *)
Theorem clean_graduation_year (u : User.t) :
  (forall e, User.clean u = Raise e <->
     (User.role u <> User.RPI /\ User.graduation_year u <> None)
     /\ e = graduation_year_error)
  /\ (User.role u = User.RPI -> User.clean u = Return tt).
Proof.
  unfold User.clean, graduation_year_error.
  destruct (String.eqb_spec (User.role u) User.RPI) as [Hr|Hr]; simpl.
  - split; [|done]. intros e; split; [done|]. by intros [[? _] _].
  - case_bool_decide as Hg; (split; [|done]); intros e; split.
    + intros [= <-]. done.
    + by intros [_ ->].
    + done.
    + by intros [[_ ?] _].
Qed.

Lemma clean_graduation_year_witness :
  User.clean alum = Raise graduation_year_error.
Proof.
  apply (proj1 (clean_graduation_year alum)).
  split; [split|]; [discriminate | discriminate | reflexivity].
Defined.

(** ** [User.can_propose_project] *)

#[local] Arguments Nat.leb : simpl never.

Lemma is_active_spec now sem :
  Semester.is_active now sem = true
  <-> (Semester.start_date sem <= now <= Semester.end_date sem)%Z.
Proof. unfold Semester.is_active. rewrite andb_true_iff, !Z.leb_le. done. Qed.

(** The checks of [can_propose_project] that come before the query: when
    they all pass, the result is that of the query. *)
Lemma can_propose_project_pass db now u sem :
  User.is_approved u = true -> User.is_active u = true ->
  Semester.is_active now sem = true ->
  Semester.is_accepting_new_projects sem = true ->
  owned_projects_count db u < 4 ->
  can_propose_project db now u (Some sem) =
    match Enrollment.objects_get (enrollments db) (User.id u) (Semester.id sem) with
    | Return e => Return (bool_decide (Enrollment.project e = None))
    | Raise DoesNotExist => Return true
    | Raise e => Raise e
    end.
Proof.
  intros Ha Hb Hc Hd He. unfold can_propose_project.
  assert ((4 <=? owned_projects_count db u) = false) as Hf
    by (apply Nat.leb_gt; lia).
  rewrite Ha, Hb, Hc, Hd, Hf. simpl.
  destruct (Enrollment.objects_get _ _ _) as [e|e]; [|done].
  by destruct (Enrollment.project e).
Qed.

Lemma can_propose_project_true db now u semester :
  can_propose_project db now u semester = Return true ->
  exists sem, semester = Some sem
    /\ User.is_approved u = true /\ User.is_active u = true
    /\ Semester.is_active now sem = true
    /\ Semester.is_accepting_new_projects sem = true
    /\ owned_projects_count db u < 4.
Proof.
  unfold can_propose_project.
  destruct (User.is_approved u), (User.is_active u); simpl; try done.
  destruct semester as [sem|]; [|done].
  destruct (Semester.is_active now sem) eqn:?,
    (Semester.is_accepting_new_projects sem) eqn:?; simpl; try done.
  destruct (Nat.leb_spec 4 (owned_projects_count db u)); [done|].
  intros _. exists sem. split_and!; done.
Qed.

(** C5. [can_propose_project] returns [False] whenever the date is outside
    the semester's [start_date..end_date] window (bounds included) or the
    semester does not accept new projects; it returns [True] only for an
    approved, active user and a semester whose window contains the date
    and which accepts new projects. *)
Theorem can_propose_project_semester_gate
    (db : Database) (now : date) (u : User.t) (sem : Semester.t) :
  (~ (Semester.start_date sem <= now <= Semester.end_date sem)%Z
   \/ Semester.is_accepting_new_projects sem = false ->
   can_propose_project db now u (Some sem) = Return false)
  /\ (can_propose_project db now u (Some sem) = Return true ->
      User.is_approved u = true /\ User.is_active u = true
      /\ (Semester.start_date sem <= now <= Semester.end_date sem)%Z
      /\ Semester.is_accepting_new_projects sem = true).
Proof.
  split.
  - intros Hgate. unfold can_propose_project.
    destruct (negb (User.is_approved u) || negb (User.is_active u)); [done|].
    destruct (Semester.is_active now sem) eqn:Hact; simpl; [|done].
    destruct (Semester.is_accepting_new_projects sem); simpl; [|done].
    apply is_active_spec in Hact. by destruct Hgate.
  - intros (sem' & [= <-] & ? & ? & Hact & ? & _)%can_propose_project_true.
    apply is_active_spec in Hact. done.
Qed.

Lemma objects_get_cases rows u s :
  match Enrollment.objects_get rows u s with
  | Return e =>
      filter (fun e => Enrollment.user e = u /\ Enrollment.semester e = s) rows = [e]
  | Raise DoesNotExist =>
      filter (fun e => Enrollment.user e = u /\ Enrollment.semester e = s) rows = []
  | Raise MultipleObjectsReturned =>
      2 <= length (filter (fun e => Enrollment.user e = u /\ Enrollment.semester e = s) rows)
  | Raise _ => False
  end.
Proof.
  unfold Enrollment.objects_get.
  destruct (filter _ rows) as [|e [|e' l]]; simpl; [done..|lia].
Qed.

Lemma objects_get_unique rows e :
  enrollment_unique rows -> e ∈ rows ->
  Enrollment.objects_get rows (Enrollment.user e) (Enrollment.semester e) = Return e.
Proof.
  intros Huniq Hin.
  pose proof (Huniq (Enrollment.user e) (Enrollment.semester e)) as Hlen.
  assert (e ∈ filter (fun e' => Enrollment.user e' = Enrollment.user e
                         /\ Enrollment.semester e' = Enrollment.semester e) rows) as Hf
    by (apply list_elem_of_filter; done).
  unfold Enrollment.objects_get.
  destruct (filter _ rows) as [|e1 [|e2 l]]; simpl in Hlen.
  - by apply elem_of_nil in Hf.
  - by apply list_elem_of_singleton in Hf as ->.
  - lia.
Qed.

(** C9. A user who owns four projects or more cannot propose, whatever the
    semester; neither can a user whose enrollment in the semester has a
    project (the enrollments being unique per user and semester, as the
    table's constraint has it).  So [True] is returned only to a user who
    owns fewer than four projects and has no enrollment with a project in
    that semester. *)
Theorem can_propose_project_limits
    (db : Database) (now : date) (u : User.t) (sem : Semester.t) :
  (forall semester,
     4 <= owned_projects_count db u ->
     can_propose_project db now u semester = Return false)
  /\ (forall e p,
        enrollment_unique (enrollments db) ->
        e ∈ enrollments db ->
        Enrollment.user e = User.id u ->
        Enrollment.semester e = Semester.id sem ->
        Enrollment.project e = Some p ->
        can_propose_project db now u (Some sem) = Return false)
  /\ (can_propose_project db now u (Some sem) = Return true ->
      owned_projects_count db u < 4
      /\ forall e,
           e ∈ enrollments db ->
           Enrollment.user e = User.id u ->
           Enrollment.semester e = Semester.id sem ->
           Enrollment.project e = None).
Proof.
  split_and!.
  - intros semester Hown. unfold can_propose_project.
    destruct (negb (User.is_approved u) || negb (User.is_active u)); [done|].
    destruct semester as [sem'|]; [|done].
    destruct (negb (Semester.is_active now sem') || _); [done|].
    by rewrite (proj2 (Nat.leb_le _ _) Hown).
  - intros e p Huniq Hin Hu Hs Hp. unfold can_propose_project.
    destruct (negb (User.is_approved u) || negb (User.is_active u)); [done|].
    destruct (negb (Semester.is_active now sem) || _); [done|].
    destruct (4 <=? owned_projects_count db u); [done|].
    rewrite <- Hu, <- Hs, (objects_get_unique _ e), Hp; done.
  - intros Htrue.
    destruct (can_propose_project_true _ _ _ _ Htrue)
      as (sem' & [= <-] & Ha & Hb & Hc & Hd & Hown).
    split; [done|]. intros e Hin Hu Hs.
    rewrite can_propose_project_pass in Htrue by done.
    assert (e ∈ filter (fun e' => Enrollment.user e' = User.id u
                          /\ Enrollment.semester e' = Semester.id sem)
                  (enrollments db)) as Hf by (apply list_elem_of_filter; done).
    pose proof (objects_get_cases (enrollments db) (User.id u) (Semester.id sem)) as Hc'.
    destruct (Enrollment.objects_get _ _ _) as [e'|[]]; try done.
    + rewrite Hc' in Hf. apply list_elem_of_singleton in Hf as ->.
      injection Htrue as Hdec. by apply bool_decide_eq_true in Hdec.
    + rewrite Hc' in Hf. by apply elem_of_nil in Hf.
Qed.

(** ** Tables: every statement keeps the indexes *)

Section ListFacts.
Context {A B : Type}.

Lemma omap_filter_sublist (f : A -> option B) (P : A -> Prop)
    `{forall x, Decision (P x)} (l : list A) :
  omap f (filter P l) `sublist_of` omap f l.
Proof.
  induction l as [|x l IH]; [done|].
  rewrite filter_cons. destruct (decide (P x)); simpl.
  - destruct (f x); [by constructor|done].
  - destruct (f x); [by constructor|done].
Qed.

(** Among elements with distinct images under [f], at most one meets a
    predicate that fixes the image. *)
Lemma filter_at_most_one (f : A -> B) (P : A -> Prop)
    `{forall x, Decision (P x)} (l : list A) :
  NoDup (f <$> l) ->
  (forall x y, P x -> P y -> f x = f y) ->
  length (filter P l) <= 1.
Proof.
  intros Hnd Hsame. induction l as [|x l IH]; [simpl; lia|].
  rewrite fmap_cons in Hnd. apply NoDup_cons in Hnd as [Hx Hnd].
  rewrite filter_cons. destruct (decide (P x)) as [HP|]; [|by apply IH].
  destruct (filter P l) as [|y l'] eqn:Hf; [simpl; lia|].
  exfalso. apply Hx.
  assert (y ∈ filter P l) as [HPy Hy]%list_elem_of_filter
    by (rewrite Hf; left).
  rewrite (Hsame x y HP HPy). by apply list_elem_of_fmap_2.
Qed.

(** Conversely, if the elements that a value [b] selects are at most one
    and each element is selected by its own image, the images are
    distinct. *)
Lemma NoDup_fmap_of_at_most_one (f : A -> B) (P : B -> A -> Prop)
    `{forall b x, Decision (P b x)} (l : list A) :
  (forall x, P (f x) x) ->
  (forall b, length (filter (P b) l) <= 1) ->
  NoDup (f <$> l).
Proof.
  intros Hown. induction l as [|x l IH]; intros Hone; [constructor|].
  rewrite fmap_cons. apply NoDup_cons. split.
  - intros (y & Hxy & Hy)%list_elem_of_fmap.
    specialize (Hone (f x)). rewrite filter_cons in Hone.
    destruct (decide (P (f x) x)) as [_|Hn]; [|by destruct Hn].
    assert (y ∈ filter (P (f x)) l) as Hin.
    { apply list_elem_of_filter. split; [|done]. rewrite Hxy. apply Hown. }
    destruct (filter _ l); [by apply elem_of_nil in Hin|simpl in Hone; lia].
  - apply IH. intros b. specialize (Hone b). rewrite filter_cons in Hone.
    destruct (decide (P b x)); simpl in Hone; lia.
Qed.
End ListFacts.

Section TableFacts.
Context {row : Type} `{Orm.Model row}.
Implicit Types (t : list row) (r : row) (cols : list string).

Lemma collides_false cols r t k :
  Orm.collides cols r t = false ->
  Orm.index_key cols r = Some k ->
  k ∉ Orm.index_keys cols t.
Proof.
  unfold Orm.collides. intros Hc Hk. rewrite Hk in Hc.
  by apply bool_decide_eq_false in Hc.
Qed.

Lemma no_collision (uts : list (list string)) r t cols :
  existsb (fun cols => Orm.collides cols r t) uts = false ->
  cols ∈ uts -> Orm.collides cols r t = false.
Proof.
  intros Hex Hin. apply not_true_is_false. intros Hc.
  assert (existsb (fun cols => Orm.collides cols r t) uts = true) as Hex'
    by (apply existsb_exists; exists cols; split; [by apply list_elem_of_In|done]).
  congruence.
Qed.

Lemma index_keys_snoc_NoDup cols r t :
  NoDup (Orm.index_keys cols t) ->
  Orm.collides cols r t = false ->
  NoDup (Orm.index_keys cols (t ++ [r])).
Proof.
  intros Hnd Hc. unfold Orm.index_keys. rewrite omap_app. simpl.
  destruct (Orm.index_key cols r) as [k|] eqn:Hk; [|by rewrite app_nil_r].
  apply NoDup_app. split_and!; [done| |apply NoDup_singleton].
  intros k' Hk' ->%list_elem_of_singleton.
  by eapply collides_false.
Qed.

Lemma others_all r t : Orm.pk r ∉ Orm.pk <$> t -> Orm.others r t = t.
Proof.
  intros Hnot. unfold Orm.others. induction t as [|x t IH]; [done|].
  rewrite fmap_cons, not_elem_of_cons in Hnot. destruct Hnot as [Hx Ht].
  rewrite filter_cons. destruct (decide (Orm.pk x <> Orm.pk r)); [|done].
  by rewrite IH.
Qed.

Lemma replace_row_pk r t : Orm.pk <$> Orm.replace_row r t = Orm.pk <$> t.
Proof.
  unfold Orm.replace_row. rewrite <- list_fmap_compose.
  apply list_fmap_ext. intros _ x _. simpl. by destruct (decide _) as [->|].
Qed.

Lemma replace_row_absent r t :
  Orm.pk r ∉ Orm.pk <$> t -> Orm.replace_row r t = t.
Proof.
  intros Hnot. unfold Orm.replace_row. induction t as [|x t IH]; [done|].
  rewrite fmap_cons, not_elem_of_cons in Hnot. destruct Hnot as [Hx Ht].
  rewrite fmap_cons, IH by done. by destruct (decide _).
Qed.

Lemma replace_row_elem r t x :
  x ∈ Orm.replace_row r t -> x = r \/ (x ∈ t /\ Orm.pk x <> Orm.pk r).
Proof.
  unfold Orm.replace_row. intros (y & -> & Hy)%list_elem_of_fmap.
  destruct (decide _); [by left|by right].
Qed.

Lemma replace_row_NoDup cols r t :
  NoDup (Orm.pk <$> t) ->
  NoDup (Orm.index_keys cols t) ->
  Orm.collides cols r (Orm.others r t) = false ->
  NoDup (Orm.index_keys cols (Orm.replace_row r t)).
Proof.
  intros Hpk Hnd Hc.
  assert (forall k x, Orm.index_key cols r = Some k -> x ∈ t ->
            Orm.pk x <> Orm.pk r -> Orm.index_key cols x <> Some k) as Hfresh.
  { intros k x Hk Hx Hne Hkx.
    eapply collides_false; [done..|].
    apply list_elem_of_omap. exists x. split; [|done].
    by apply list_elem_of_filter. }
  clear Hc. induction t as [|x t IH]; [constructor|].
  rewrite fmap_cons in Hpk. apply NoDup_cons in Hpk as [Hx Hpk].
  unfold Orm.index_keys in Hnd |- *.
  change (Orm.replace_row r (x :: t))
    with ((if decide (Orm.pk x = Orm.pk r) then r else x) :: Orm.replace_row r t).
  destruct (decide (Orm.pk x = Orm.pk r)) as [Heq|Hne].
  - rewrite replace_row_absent by (by rewrite <- Heq).
    simpl in Hnd |- *.
    assert (NoDup (omap (Orm.index_key cols) t)) as Hnd'
      by (destruct (Orm.index_key cols x); [by apply NoDup_cons in Hnd as []|done]).
    destruct (Orm.index_key cols r) as [k|] eqn:Hk; [|done].
    apply NoDup_cons. split; [|done].
    intros (y & Hy & Hky)%list_elem_of_omap.
    apply (Hfresh k y); [done|by right| |done].
    intros Hyr. apply Hx. rewrite Heq, <- Hyr. by apply list_elem_of_fmap_2.
  - simpl in Hnd |- *.
    assert (NoDup (omap (Orm.index_key cols) (Orm.replace_row r t))) as IH'.
    { apply IH; [done| |].
      - destruct (Orm.index_key cols x); [by apply NoDup_cons in Hnd as []|done].
      - intros k y Hk Hy. apply Hfresh; [done|by right]. }
    destruct (Orm.index_key cols x) as [k|] eqn:Hk; [|done].
    apply NoDup_cons in Hnd as [Hkx Hnd].
    apply NoDup_cons. split; [|done].
    intros (y & Hy & Hky)%list_elem_of_omap.
    apply replace_row_elem in Hy as [->|[Hy _]].
    + apply (Hfresh k x); [done|by left|done|done].
    + apply Hkx. apply list_elem_of_omap. eauto.
Qed.

(** Every statement leaves a consistent table consistent. *)
Lemma after_consistent (uts : list (list string)) (s : Orm.statement row) t :
  Orm.consistent uts t -> Orm.consistent uts (Orm.after uts s t).
Proof.
  intros [Hpk Hidx]. unfold Orm.after.
  destruct (Orm.execute uts s t) as [t'|] eqn:Hex; [|done].
  rewrite Forall_forall in Hidx.
  destruct s as [r|r|k|p|p f]; simpl in Hex.
  - destruct (bool_decide _) eqn:Hin; [done|].
    destruct (existsb _ uts) eqn:Hcol; [done|].
    injection Hex as <-. apply bool_decide_eq_false in Hin. split.
    + rewrite fmap_app. apply NoDup_app. split_and!; [done| |apply NoDup_singleton].
      by intros k Hk ->%list_elem_of_singleton.
    + apply Forall_forall. intros cols Hcols.
      apply index_keys_snoc_NoDup; [by apply Hidx|by eapply no_collision].
  - destruct (existsb _ uts) eqn:Hcol; [done|].
    case_bool_decide as Hin; injection Hex as <-.
    + split; [by rewrite replace_row_pk|].
      apply Forall_forall. intros cols Hcols.
      apply replace_row_NoDup; [done|by apply Hidx|by eapply no_collision].
    + rewrite others_all in Hcol by done. split.
      * rewrite fmap_app. apply NoDup_app. split_and!; [done| |apply NoDup_singleton].
        by intros k Hk ->%list_elem_of_singleton.
      * apply Forall_forall. intros cols Hcols.
        apply index_keys_snoc_NoDup; [by apply Hidx|by eapply no_collision].
  - injection Hex as <-. split.
    + apply (sublist_NoDup _ (Orm.pk <$> t)); [done|].
      apply fmap_sublist, sublist_filter.
    + apply Forall_forall. intros cols Hcols.
      apply (sublist_NoDup _ (Orm.index_keys cols t)); [by apply Hidx|].
      apply omap_filter_sublist.
  - injection Hex as <-. split.
    + apply (sublist_NoDup _ (Orm.pk <$> t)); [done|].
      apply fmap_sublist, sublist_filter.
    + apply Forall_forall. intros cols Hcols.
      apply (sublist_NoDup _ (Orm.index_keys cols t)); [by apply Hidx|].
      apply omap_filter_sublist.
  - case_bool_decide as Hok; [|done]. by injection Hex as <-.
Qed.
End TableFacts.

(** ** The two uniqueness constraints *)

Lemma enrollment_index_keys t :
  Orm.index_keys ["semester"; "user"] t =
  (fun k : nat * string => [Orm.VStr k.2; Orm.VInt (Z.of_nat k.1)]) <$> (enrollment_key <$> t).
Proof.
  unfold Orm.index_keys. induction t as [|e t IH]; [done|].
  rewrite !fmap_cons, <- IH. reflexivity.
Qed.

Lemma pitch_index_keys t :
  Orm.index_keys ["semester"; "project"] t =
  (fun k : string * nat => [Orm.VStr k.1; Orm.VInt (Z.of_nat k.2)]) <$> (pitch_key <$> t).
Proof.
  unfold Orm.index_keys. induction t as [|e t IH]; [done|].
  rewrite !fmap_cons, <- IH. reflexivity.
Qed.

Lemma enrollment_unique_NoDup t :
  enrollment_unique t <-> NoDup (enrollment_key <$> t).
Proof.
  split.
  - intros Hu.
    apply (NoDup_fmap_of_at_most_one enrollment_key
             (fun k e => Enrollment.user e = k.1 /\ Enrollment.semester e = k.2)).
    + done.
    + intros [u s]. apply Hu.
  - intros Hnd u s. apply (filter_at_most_one enrollment_key); [done|].
    unfold enrollment_key. intros x y [-> ->] [-> ->]. done.
Qed.

Lemma pitch_unique_NoDup t :
  pitch_unique t <-> NoDup (pitch_key <$> t).
Proof.
  split.
  - intros Hu.
    apply (NoDup_fmap_of_at_most_one pitch_key
             (fun k r => ProjectPitch.semester r = k.1 /\ ProjectPitch.project r = k.2)).
    + done.
    + intros [s p]. apply Hu.
  - intros Hnd s p. apply (filter_at_most_one pitch_key); [done|].
    unfold pitch_key. intros x y [-> ->] [-> ->]. done.
Qed.

Lemma enrollment_consistent t :
  Orm.consistent enrollment_unique_together t
  <-> NoDup (Enrollment.id <$> t) /\ enrollment_unique t.
Proof.
  unfold Orm.consistent, enrollment_unique_together.
  rewrite Forall_singleton, enrollment_index_keys, enrollment_unique_NoDup.
  assert (Inj (=) (=) (fun k : nat * string => [Orm.VStr k.2; Orm.VInt (Z.of_nat k.1)]))
    as Hinj by (intros [u s] [u' s'] [= -> Hu]; f_equal; lia).
  by rewrite (NoDup_fmap _ (enrollment_key <$> t)).
Qed.

Lemma pitch_consistent t :
  Orm.consistent [ ["semester"; "project"] ] t
  <-> NoDup (ProjectPitch.id <$> t) /\ pitch_unique t.
Proof.
  unfold Orm.consistent.
  rewrite Forall_singleton, pitch_index_keys, pitch_unique_NoDup.
  assert (Inj (=) (=) (fun k : string * nat => [Orm.VStr k.1; Orm.VInt (Z.of_nat k.2)]))
    as Hinj by (intros [s p] [s' p'] [= -> Hp]; f_equal; lia).
  by rewrite (NoDup_fmap _ (pitch_key <$> t)).
Qed.

(** Whatever the earlier migrations left, the three migrations leave
    [ProjectPitch] with the constraint that [0003] declares. *)
Lemma project_pitch_unique_together st :
  Migration.unique_together_of st "projectpitch" = [ ["semester"; "project"] ].
Proof.
  unfold Migration.unique_together_of, Migration.schema, Migration.migrate. simpl.
  by rewrite lookup_insert_eq.
Qed.

(** C3. In the schema the migrations produce, a [ProjectPitch] table whose
    primary keys are distinct and which has at most one row for every
    semester and project is still such a table after any statement. *)
Theorem project_pitch_unique_per_semester_project
    (st : gmap string (list (list string)))
    (s : Orm.statement ProjectPitch.t) (t : list ProjectPitch.t) :
  NoDup (ProjectPitch.id <$> t) ->
  pitch_unique t ->
  NoDup (ProjectPitch.id <$> Orm.after (Migration.unique_together_of st "projectpitch") s t)
  /\ pitch_unique (Orm.after (Migration.unique_together_of st "projectpitch") s t).
Proof.
  intros Hpk Hu. rewrite project_pitch_unique_together.
  apply pitch_consistent, after_consistent, pitch_consistent. done.
Qed.

(** C7. An [Enrollment] table whose primary keys are distinct and which has
    at most one row for every user and semester is still such a table
    after any statement. *)
Theorem enrollment_unique_per_semester_user
    (s : Orm.statement Enrollment.t) (t : list Enrollment.t) :
  NoDup (Enrollment.id <$> t) ->
  enrollment_unique t ->
  NoDup (Enrollment.id <$> Orm.after enrollment_unique_together s t)
  /\ enrollment_unique (Orm.after enrollment_unique_together s t).
Proof.
  intros Hpk Hu.
  apply enrollment_consistent, after_consistent, enrollment_consistent. done.
Qed.

(** ** The embed URL of a meeting's presentation *)

Section RegexFacts.
Implicit Types (cs r : list ascii) (c : ascii).

Lemma greedy_is_run cs : is_run (Re.greedy cs).
Proof.
  induction cs as [|c cs IH]; simpl; [constructor|].
  destruct (Re.is_word_or_hyphen c) eqn:Hc; by constructor.
Qed.

(** What [greedy] leaves starts with a character outside the class. *)
Lemma greedy_split cs :
  exists rest, cs = Re.greedy cs ++ rest
    /\ forall c a, rest = c :: a -> Re.is_word_or_hyphen c = false.
Proof.
  induction cs as [|c cs (rest & IH & Hrest)]; simpl.
  - exists []. done.
  - destruct (Re.is_word_or_hyphen c) eqn:Hc; simpl.
    + exists rest. split; [by rewrite <- IH|done].
    + exists (c :: cs). split; [done|]. by intros ?? [= <- _].
Qed.

Lemma greedy_run_app r rest :
  is_run r ->
  (forall c a, rest = c :: a -> Re.is_word_or_hyphen c = false) ->
  Re.greedy (r ++ rest) = r.
Proof.
  intros Hr Hrest. induction Hr as [|c r Hc _ IH]; simpl.
  - destruct rest as [|c a]; [done|]. simpl. by rewrite (Hrest c a).
  - by rewrite Hc, IH.
Qed.

(** A run at the head of [cs] is inside what [greedy] consumes. *)
Lemma greedy_longest r rest :
  is_run r -> length r <= length (Re.greedy (r ++ rest)).
Proof.
  intros Hr. induction Hr as [|c r Hc _ IH]; simpl; [lia|].
  rewrite Hc. simpl. lia.
Qed.

(** Either all of [b] is in the class, or [greedy] stops inside [b]. *)
Lemma greedy_prefix_cases b rest :
  is_run b \/ Re.greedy (b ++ rest) = Re.greedy b.
Proof.
  induction b as [|c b IH]; simpl; [by left; constructor|].
  destruct (Re.is_word_or_hyphen c) eqn:Hc; [|by right].
  destruct IH as [Hb| ->]; [left; by constructor|by right].
Qed.

Lemma match_here_Some cs r :
  Re.match_here cs = Some r <-> r = Re.greedy cs /\ 25 <= length (Re.greedy cs).
Proof.
  unfold Re.match_here.
  destruct (Nat.leb_spec 25 (length (Re.greedy cs))); split.
  - by intros [= <-].
  - by intros [-> _].
  - done.
  - intros [_ ?]. lia.
Qed.

Lemma match_here_None cs :
  Re.match_here cs = None <-> length (Re.greedy cs) < 25.
Proof.
  unfold Re.match_here.
  destruct (Nat.leb_spec 25 (length (Re.greedy cs))); split; try done; lia.
Qed.

Lemma search_unfold cs :
  Re.search cs =
    match Re.match_here cs with
    | Some r => Some r
    | None => match cs with [] => None | _ :: cs' => Re.search cs' end
    end.
Proof. by destruct cs. Qed.

Lemma search_first cs r : Re.search cs = Some r -> first_long_run cs r.
Proof.
  revert r. induction cs as [|c cs IH]; intros r; rewrite search_unfold.
  - destruct (Re.match_here []) eqn:Hm; [|done].
    apply match_here_Some in Hm as [_ Hlen]. simpl in Hlen. lia.
  - destruct (Re.match_here (c :: cs)) as [r'|] eqn:Hm.
    + intros [= ->]. apply match_here_Some in Hm as [-> Hlen].
      destruct (greedy_split (c :: cs)) as (rest & Hsplit & Hrest).
      exists [], rest. split_and!; try done.
      * apply greedy_is_run.
      * by intros [|??] ? ?.
      * intros [|??] [|??] ? ? ?; simplify_eq/=. lia.
    + intros (before & after & -> & Hr & Hlen & Hleft & Hright & Hfirst)%IH.
      apply match_here_None in Hm.
      exists (c :: before), after. split_and!; try done.
      * intros b c' Hb. destruct b as [|c0 b]; simplify_eq/=.
        -- simpl in Hm.
           destruct (Re.is_word_or_hyphen c') eqn:Hc; [|done].
           pose proof (greedy_longest r after Hr). simpl in Hm. lia.
        -- by eapply Hleft.
      * intros b r' a Hb Hr'. destruct b as [|c0 b]; simplify_eq/=.
        -- pose proof (greedy_longest r' (a ++ r ++ after) Hr') as Hle.
           rewrite app_assoc, <- Hb in Hle. simpl in Hle, Hm. lia.
        -- by eapply Hfirst.
Qed.

Lemma first_long_run_search cs r : first_long_run cs r -> Re.search cs = Some r.
Proof.
  intros (before & after & -> & Hr & Hlen & Hleft & Hright & Hfirst).
  induction before as [|c before IH]; rewrite search_unfold.
  - assert (Re.match_here ([] ++ r ++ after) = Some r) as ->; [|done].
    apply match_here_Some. simpl. by rewrite greedy_run_app.
  - assert (Re.match_here ((c :: before) ++ r ++ after) = None) as ->.
    { apply match_here_None.
      destruct (greedy_prefix_cases (c :: before) (r ++ after)) as [Hrun| ->].
      - (* the run would cover the last character of [c :: before] *)
        destruct (exists_last (l := c :: before)) as (b & c' & Hb); [done|].
        pose proof (Hleft b c' Hb) as Hc'.
        rewrite Hb in Hrun. apply Forall_app in Hrun as [_ Hrun].
        apply Forall_inv in Hrun. simpl in Hrun. congruence.
      - (* the run ends inside [c :: before] *)
        destruct (greedy_split (c :: before)) as (rest & Hsplit & _).
        apply (Hfirst [] (Re.greedy (c :: before)) rest);
          [done|apply greedy_is_run]. }
    apply IH.
    + intros b c' ->. apply (Hleft (c :: b) c'). done.
    + intros b r' a ->. apply (Hfirst (c :: b) r' a). done.
Qed.

Lemma search_None cs : Re.search cs = None <-> ~ has_long_run cs.
Proof.
  split.
  - induction cs as [|c cs IH]; rewrite search_unfold;
      destruct (Re.match_here _) eqn:Hm; try done;
      apply match_here_None in Hm;
      intros Hs (before & r & after & Hcs & Hr & Hlen).
    + destruct before, r; simplify_eq/=. lia.
    + destruct before as [|c0 before]; simplify_eq/=.
      * pose proof (greedy_longest r after Hr) as Hle.
        rewrite <- Hcs in Hle. simpl in Hle. lia.
      * apply (IH Hs). by exists before, r, after.
  - intros Hno. destruct (Re.search cs) as [r|] eqn:Hs; [|done].
    destruct Hno. apply search_first in Hs
      as (before & after & -> & Hr & Hlen & _).
    by exists before, r, after.
Qed.

Lemma has_long_run_first cs : has_long_run cs <-> exists r, first_long_run cs r.
Proof.
  split.
  - intros Hrun. destruct (Re.search cs) as [r|] eqn:Hs.
    + exists r. by apply search_first.
    + by apply search_None in Hs.
  - intros (r & before & after & -> & Hr & Hlen & _). by exists before, r, after.
Qed.

Lemma prefix_spec (s1 s2 : string) :
  String.prefix s1 s2 = true <-> exists rest, s2 = s1 +:+ rest.
Proof.
  revert s2. induction s1 as [|a s1 IH]; intros s2.
  - split; [exists s2; done|by destruct s2].
  - destruct s2 as [|b s2]; simpl.
    + split; [done|]. by intros [rest ?].
    + destruct (ascii_dec a b) as [->|Hne].
      * rewrite IH. split; intros [rest Hrest]; exists rest.
        -- by rewrite Hrest.
        -- by injection Hrest.
      * split; [done|]. intros [rest [= ? _]]. done.
Qed.

Lemma contains_spec (needle s : string) :
  contains needle s = true <-> is_substring needle s.
Proof.
  unfold is_substring. induction s as [|a s IH].
  - change (contains needle "") with (String.prefix needle "" || false).
    rewrite orb_false_r, prefix_spec. split.
    + intros [rest Hrest]. by exists "", rest.
    + intros ([|??] & after & Hs); [by exists after|done].
  - change (contains needle (String a s))
      with (String.prefix needle (String a s) || contains needle s).
    rewrite orb_true_iff, prefix_spec, IH. split.
    + intros [[rest Hrest]|(before & after & ->)].
      * by exists "", rest.
      * by exists (String a before), after.
    + intros ([|b before] & after & Hs).
      * left. by exists after.
      * right. exists before, after. by injection Hs.
Qed.
End RegexFacts.

Section EmbedUrl.
Context `{Datetime}.

End EmbedUrl.

(** ** Saving a meeting and its remote calendar event *)

Section SyncDiscordEvent.
Context `{Datetime} `{DiscordService}.
Implicit Types (m : Meeting.t) (w : Meeting.World).
#[local] Arguments Meeting.sync_payload : simpl never.
#[local] Arguments Meeting.save : simpl never.

Lemma sync_payload_set_discord_event_id i m :
  Meeting.sync_payload (Meeting.set_discord_event_id i m) = Meeting.sync_payload m.
Proof. done. Qed.

Lemma write_row_fields m w :
  let m1 := (Meeting.write_row m w).1 in
  Meeting.is_published m1 = Meeting.is_published m
  /\ Meeting.discord_event_id m1 = Meeting.discord_event_id m
  /\ Meeting.discord_log (Meeting.write_row m w).2 = Meeting.discord_log w
  /\ exists k, Meeting.pk m1 = Some k
       /\ Meeting.meetings (Meeting.write_row m w).2 !! k = Some m1.
Proof.
  unfold Meeting.write_row. destruct (Meeting.pk m) as [k|] eqn:Hk; simpl.
  - split_and!; try done. exists k. by rewrite lookup_insert_eq.
  - split_and!; try done. eexists. by rewrite lookup_insert_eq.
Qed.

Lemma write_row_saved m w k :
  Meeting.pk m = Some k ->
  Meeting.write_row m w =
    (m, Meeting.mkWorld (<[k := m]> (Meeting.meetings w))
          (Meeting.next_pk w) (Meeting.discord_log w)).
Proof. unfold Meeting.write_row. by intros ->. Qed.

Lemma save_unfold d m w :
  Meeting.save (S d) m w =
    Meeting.sync_discord_event (Meeting.save d)
      (Meeting.write_row m w).1 (Meeting.write_row m w).2.
Proof. unfold Meeting.save. by destruct (Meeting.write_row m w). Qed.

(** The calls made are only ever added to. *)
Lemma save_log_extends d m w :
  exists calls,
    Meeting.discord_log (Meeting.save d m w).2 = Meeting.discord_log w ++ calls.
Proof.
  revert m w. induction d as [|d IH]; intros m w.
  - exists []. unfold Meeting.save. simpl. by rewrite app_nil_r.
  - rewrite save_unfold.
    destruct (write_row_fields m w) as (_ & _ & Hlog & _).
    destruct (Meeting.write_row m w) as [m1 w1]. simpl in *.
    unfold Meeting.sync_discord_event.
    destruct (negb _ && _).
    + destruct (create_server_event _ _) as [event|e]; simpl.
      * destruct (event !! "id") as [i|]; simpl.
        -- destruct (IH (Meeting.set_discord_event_id i m1)
             (Meeting.record_call (CreateServerEvent (Meeting.sync_payload m1)) w1))
             as [calls ->].
           simpl. rewrite Hlog, <- app_assoc. eauto.
        -- rewrite Hlog. eauto.
      * rewrite Hlog. eauto.
    + destruct (_ && _).
      * destruct (update_server_event _ _ _); simpl; rewrite Hlog; eauto.
      * exists []. by rewrite app_nil_r.
Qed.

(** C2, as the code has it.  Saving a meeting writes its row and then:
    - for an unpublished meeting, calls nothing;
    - for a published meeting with a stored event id, sends one update of
      that event, with the display name, the two times in ISO format,
      the description built for the event and the location;
    - for a published meeting without a stored event id, sends a create
      request with the same arguments; when the answer carries a non-empty
      id, the id is stored on the meeting, whose row is written again,
      and the new event is sent one update. *)
Theorem save_syncs_published_meeting (d : nat) m w :
  let m1 := (Meeting.write_row m w).1 in
  let w1 := (Meeting.write_row m w).2 in
  let payload :=
    {| ev_name := Meeting.display_name m1;
       ev_scheduled_start_time := isoformat (Meeting.starts_at m1);
       ev_scheduled_end_time := isoformat (Meeting.ends_at m1);
       ev_description := Meeting.sync_description m1;
       ev_location := Meeting.location m1 |} in
  (Meeting.is_published m = false ->
     Meeting.save (S d) m w = (Return m1, w1))
  /\ (Meeting.is_published m = true -> Meeting.discord_event_id m <> "" ->
      Meeting.save (S d) m w =
        (match update_server_event (Meeting.discord_log w)
                 (Meeting.discord_event_id m) payload with
         | Return _ => Return m1
         | Raise e => Raise e
         end,
         Meeting.record_call (UpdateServerEvent (Meeting.discord_event_id m) payload) w1))
  /\ (Meeting.is_published m = true -> Meeting.discord_event_id m = "" ->
      (exists calls,
         Meeting.discord_log (Meeting.save (S d) m w).2
         = Meeting.discord_log w ++ CreateServerEvent payload :: calls)
      /\ forall event i k,
           create_server_event (Meeting.discord_log w) payload = Return event ->
           event !! "id" = Some i -> i <> "" ->
           Meeting.pk m1 = Some k ->
           Meeting.save (S (S d)) m w =
             (match update_server_event
                      (Meeting.discord_log w ++ [CreateServerEvent payload])
                      i payload with
              | Return _ => Return (Meeting.set_discord_event_id i m1)
              | Raise e => Raise e
              end,
              Meeting.mkWorld
                (<[k := Meeting.set_discord_event_id i m1]> (Meeting.meetings w1))
                (Meeting.next_pk w1)
                (Meeting.discord_log w
                 ++ [CreateServerEvent payload; UpdateServerEvent i payload]))).
Proof.
  intros m1 w1 payload.
  assert (Meeting.sync_payload m1 = payload) as Hpay by done.
  destruct (write_row_fields m w) as (Hpub & Hid & Hlog & _).
  fold m1 w1 in Hpub, Hid, Hlog.
  assert (forall s, truthy s = true <-> s <> "") as Htruthy.
  { intros s. unfold truthy. rewrite negb_true_iff. apply String.eqb_neq. }
  split_and!.
  - intros Hp. rewrite save_unfold. fold m1 w1.
    unfold Meeting.sync_discord_event. rewrite Hpub, Hp, !andb_false_r. done.
  - intros Hp Hne. rewrite save_unfold. fold m1 w1.
    unfold Meeting.sync_discord_event.
    rewrite Hpub, Hp, Hid, (proj2 (Htruthy _) Hne), Hlog, Hpay. simpl.
    by destruct (update_server_event _ _ _).
  - intros Hp Hempty. split.
    + rewrite save_unfold. fold m1 w1. unfold Meeting.sync_discord_event.
      rewrite Hpub, Hp, Hid, Hempty, Hpay. simpl.
      destruct (create_server_event _ _) as [event|e]; simpl.
      * destruct (event !! "id") as [i|]; simpl.
        -- destruct (save_log_extends d (Meeting.set_discord_event_id i m1)
             (Meeting.record_call (CreateServerEvent payload) w1)) as [calls ->].
           simpl. rewrite Hlog, <- app_assoc. eauto.
        -- rewrite Hlog. eauto.
      * rewrite Hlog. eauto.
    + intros event i k Hcreate Hevent Hne Hk.
      rewrite save_unfold. fold m1 w1. unfold Meeting.sync_discord_event at 1.
      rewrite Hpub, Hp, Hid, Hempty, Hlog, Hpay. simpl.
      rewrite Hcreate, Hevent, save_unfold.
      rewrite (write_row_saved _ _ k) by done. simpl.
      unfold Meeting.sync_discord_event. simpl.
      rewrite Hpub, Hp, (proj2 (Htruthy _) Hne), Hlog. simpl.
      rewrite sync_payload_set_discord_event_id, Hpay.
      destruct (update_server_event _ _ _);
        unfold Meeting.record_call; simpl; by rewrite <- app_assoc.
Qed.
End SyncDiscordEvent.

Section SyncExamples.
#[local] Existing Instance sample_datetime.
#[local] Existing Instance sample_discord.

(** C2 as stated fails: a meeting without a stored event id that is not
    published is saved without any call, and keeps no event id. *)
Lemma save_unpublished_creates_nothing :
  Meeting.discord_event_id (workshop false "") = ""
  /\ Meeting.save 5 (workshop false "") empty_world =
       (Return (Meeting.set_pk 1 (workshop false "")),
        Meeting.mkWorld {[ 1 := Meeting.set_pk 1 (workshop false "") ]} 2 []).
Proof. split; reflexivity. Qed.

Lemma save_syncs_published_meeting_witness :
  Meeting.discord_log (Meeting.save 2 (workshop true "") empty_world).2 =
    [ CreateServerEvent (Meeting.sync_payload (Meeting.set_pk 1 (workshop true "")));
      UpdateServerEvent "90" (Meeting.sync_payload (Meeting.set_pk 1 (workshop true ""))) ]
  /\ Meeting.save 1 (workshop true "77") empty_world =
       (Return (Meeting.set_pk 1 (workshop true "77")),
        Meeting.mkWorld {[ 1 := Meeting.set_pk 1 (workshop true "77") ]} 2
          [ UpdateServerEvent "77"
              (Meeting.sync_payload (Meeting.set_pk 1 (workshop true "77"))) ])
  /\ Meeting.save 1 (workshop false "77") empty_world =
       (Return (Meeting.set_pk 1 (workshop false "77")),
        Meeting.mkWorld {[ 1 := Meeting.set_pk 1 (workshop false "77") ]} 2 []).
Proof.
  split_and!.
  - destruct (save_syncs_published_meeting 0 (workshop true "") empty_world)
      as (_ & _ & Hcreate).
    destruct (Hcreate eq_refl eq_refl) as [_ Hstored].
    by rewrite (Hstored {[ "id" := "90" ]} "90" 1 eq_refl eq_refl ltac:(done) eq_refl).
  - destruct (save_syncs_published_meeting 0 (workshop true "77") empty_world)
      as (_ & Hupdate & _).
    exact (Hupdate eq_refl ltac:(done)).
  - destruct (save_syncs_published_meeting 0 (workshop false "77") empty_world)
      as (Hnone & _).
    exact (Hnone eq_refl).
Defined.
End SyncExamples.

(** ** The linking callback *)

Section LinkCallback.
Context `{DiscordService}.

Lemma querydict_get_None q key :
  Auth.querydict_get q key = None <-> forall v, (key, v) ∉ q.
Proof.
  induction q as [|[k v] q IH]; simpl.
  - split; [|done]. intros _ v. apply not_elem_of_nil.
  - destruct (Auth.querydict_get q key) as [v'|].
    + split; [done|]. intros Hno.
      destruct IH as [_ IH]. discriminate IH.
      intros v0 Hin. apply (Hno v0). by right.
    + destruct (String.eqb_spec k key) as [->|Hne].
      * split; [done|]. intros Hno. destruct (Hno v). left.
      * split; [|done]. intros _ v0 [[= ? _]|Hin]%elem_of_cons; [done|].
        by apply (proj1 IH eq_refl v0).
Qed.

Lemma pre_save_user_keeps u :
  User.id (pre_save_user u) = User.id u
  /\ User.discord_user_id (pre_save_user u) = User.discord_user_id u.
Proof. unfold pre_save_user. by destruct (_ && _). Qed.

(** What [save] stores for the user once the id is set. *)
Lemma save_user_stored i u w :
  exists u',
    Auth.users (Auth.save_user (User.set_discord_user_id i u) w) !! User.id u = Some u'
    /\ User.discord_user_id u' = i.
Proof.
  unfold Auth.save_user.
  destruct (pre_save_user_keeps (User.set_discord_user_id i u)) as [Hid Hd].
  eexists. split.
  - simpl. rewrite Hid. simpl. apply lookup_insert_eq.
  - simpl. by rewrite Hd.
Qed.

(** C10. For a logged-in user, the callback raises [BadRequest] when the
    query string has no ["code"] or an empty one, and then nothing changes;
    whenever the table of users changes at all, the token exchange and the
    fetch of the user's information both succeeded, the view redirects,
    and the row stored for the user carries the id fetched. *)
Theorem discord_link_callback_persists_after_success
    (req : Auth.request) (u : User.t) (w : Auth.World) :
  Auth.user req = LoggedIn u ->
  ((forall v, ("code", v) ∉ Auth.GET req)
    \/ Auth.querydict_get (Auth.GET req) "code" = Some "" ->
    Auth.discord_link_callback_view req w = (Raise BadRequest, w))
  /\ (Auth.users (Auth.discord_link_callback_view req w).2 = Auth.users w
      \/ exists code tokens access_token info i u',
           Auth.querydict_get (Auth.GET req) "code" = Some code
           /\ get_tokens (Auth.discord_log w) code = Return tokens
           /\ tokens !! "access_token" = Some access_token
           /\ get_user_info (Auth.discord_log w ++ [GetTokens code]) access_token
              = Return info
           /\ info !! "id" = Some i
           /\ (Auth.discord_link_callback_view req w).1 = Return (Auth.Redirect "/")
           /\ Auth.users (Auth.discord_link_callback_view req w).2 !! User.id u = Some u'
           /\ User.discord_user_id u' = i).
Proof.
  intros Huser.
  unfold Auth.discord_link_callback_view, Auth.login_required. rewrite Huser.
  unfold Auth.discord_link_callback. split.
  - intros [Habsent| ->]; [|done].
    by rewrite (proj2 (querydict_get_None _ _) Habsent).
  - destruct (Auth.querydict_get (Auth.GET req) "code") as [code|]; [|by left].
    destruct (truthy code); simpl; [|by left].
    destruct (get_tokens _ code) as [tokens|e] eqn:Htokens;
      [|by destruct e; left].
    destruct (tokens !! "access_token") as [access_token|] eqn:Htok; [|by left].
    simpl.
    destruct (get_user_info _ access_token) as [info|e] eqn:Hinfo;
      [|by destruct e; left].
    destruct (info !! "id") as [i|] eqn:Hi; [|by left].
    right.
    destruct (save_user_stored i u
                (Auth.record_call (GetUserInfo access_token)
                   (Auth.record_call (GetTokens code) w))) as (u' & Hu' & Hd).
    exists code, tokens, access_token, info, i, u'.
    split_and!; [done|done|done|exact Hinfo|done|done|exact Hu'|done].
Qed.
End LinkCallback.

Section LinkExamples.
#[local] Existing Instance sample_discord.

Lemma discord_link_callback_persists_after_success_witness :
  Auth.discord_link_callback_view
    (Auth.mkRequest [("state", "x"); ("code", "")] (LoggedIn linked_user))
    auth_world
  = (Raise BadRequest, auth_world).
Proof.
  apply (discord_link_callback_persists_after_success _ linked_user); [done|].
  by right.
Defined.

(** With a code that the platform accepts, the id fetched is stored. *)
Example discord_link_callback_success :
  User.discord_user_id <$>
    Auth.users
      (Auth.discord_link_callback_view
         (Auth.mkRequest [("code", "abc")] (LoggedIn linked_user)) auth_world).2
    !! 12
  = Some "user-of-token-abc".
Proof. reflexivity. Qed.
End LinkExamples.

(** ** The dashboard *)

Section IndexFacts.
Context `{IndexServices}.
Implicit Types (cache : gmap string (Index.pyval * Z)) (data : gmap string Index.pyval).

Lemma cache_get_or_set_other cache clock key default timeout key' :
  key <> key' ->
  (Index.cache_get_or_set cache clock key default timeout).2 !! key' = cache !! key'.
Proof.
  intros Hne. unfold Index.cache_get_or_set.
  destruct (Index.cache_get cache clock key); simpl; [done|].
  by rewrite lookup_insert_ne.
Qed.

Lemma cache_get_other cache clock key default timeout key' :
  key <> key' ->
  Index.cache_get (Index.cache_get_or_set cache clock key default timeout).2 clock key'
  = Index.cache_get cache clock key'.
Proof.
  intros Hne. unfold Index.cache_get at 1.
  by rewrite cache_get_or_set_other.
Qed.

Lemma cache_get_or_set_served cache clock key default :
  let r := Index.cache_get_or_set cache clock key default Index.one_day in
  match Index.cache_get cache clock key with
  | Some v => r.1 = v /\ r.2 !! key = cache !! key
  | None => r.1 = default /\ r.2 !! key = Some (default, (clock + 86400)%Z)
  end.
Proof.
  unfold Index.cache_get_or_set.
  destruct (Index.cache_get cache clock key); simpl; [done|].
  split; [done|]. by rewrite lookup_insert_eq.
Qed.

Lemma team_members db p sem e :
  e ∈ Index.project_team_enrollments db p sem
  <-> e ∈ enrollments db
      /\ Enrollment.project e = Some p
      /\ Enrollment.semester e = Semester.id sem.
Proof.
  unfold Index.project_team_enrollments.
  rewrite merge_sort_Permutation, list_elem_of_filter. tauto.
Qed.

End IndexFacts.

(** ** Examples *)

Lemma can_propose_project_semester_gate_witness :
  can_propose_project sample_db 738600%Z linked_user (Some closed_spring) = Return false
  /\ (User.is_approved alum = true /\ User.is_active alum = true
      /\ (Semester.start_date spring <= 738600 <= Semester.end_date spring)%Z
      /\ Semester.is_accepting_new_projects spring = true).
Proof.
  split.
  - apply (can_propose_project_semester_gate sample_db 738600%Z linked_user closed_spring).
    by right.
  - apply (can_propose_project_semester_gate sample_db 738600%Z alum spring).
    reflexivity.
Defined.

Lemma sample_enrollments_unique : enrollment_unique (enrollments sample_db).
Proof. apply enrollment_unique_NoDup. compute_done. Defined.

Lemma can_propose_project_limits_witness :
  can_propose_project sample_db 738600%Z member (Some spring) = Return false
  /\ (owned_projects_count sample_db alum < 4
      /\ forall e,
           e ∈ enrollments sample_db ->
           Enrollment.user e = User.id alum ->
           Enrollment.semester e = Semester.id spring ->
           Enrollment.project e = None).
Proof.
  split.
  - apply (proj1 (proj2 (can_propose_project_limits sample_db 738600%Z member spring))
             member_enrollment 40).
    + exact sample_enrollments_unique.
    + by left.
    + reflexivity.
    + reflexivity.
    + reflexivity.
  - apply (proj2 (proj2 (can_propose_project_limits sample_db 738600%Z alum spring))).
    reflexivity.
Defined.

Lemma project_pitch_unique_per_semester_project_witness :
  NoDup (ProjectPitch.id <$>
           Orm.after (Migration.unique_together_of ∅ "projectpitch")
             (Orm.Create second_pitch) [telescope_pitch])
  /\ pitch_unique
       (Orm.after (Migration.unique_together_of ∅ "projectpitch")
          (Orm.Create second_pitch) [telescope_pitch]).
Proof.
  apply project_pitch_unique_per_semester_project.
  - compute_done.
  - apply pitch_unique_NoDup. compute_done.
Defined.

(** The second pitch for the same semester and project is refused. *)
Example second_pitch_refused :
  Orm.execute (Migration.unique_together_of ∅ "projectpitch")
    (Orm.Create second_pitch) [telescope_pitch] = Raise IntegrityError.
Proof. reflexivity. Qed.

Lemma enrollment_unique_per_semester_user_witness :
  NoDup (Enrollment.id <$>
           Orm.after enrollment_unique_together
             (Orm.Save (Enrollment.mk 3 "202301" 5 None 1%Z false false false false))
             (enrollments sample_db))
  /\ enrollment_unique
       (Orm.after enrollment_unique_together
          (Orm.Save (Enrollment.mk 3 "202301" 5 None 1%Z false false false false))
          (enrollments sample_db)).
Proof.
  apply enrollment_unique_per_semester_user.
  - compute_done.
  - exact sample_enrollments_unique.
Defined.

(** Moving enrollment 3 to a user who is already enrolled is refused;
    moving it to another semester is accepted. *)
Example enrollment_save_refused :
  Orm.execute enrollment_unique_together
    (Orm.Save (Enrollment.mk 3 "202301" 5 None 1%Z false false false false))
    (enrollments sample_db) = Raise IntegrityError
  /\ Orm.execute enrollment_unique_together
       (Orm.Save (Enrollment.mk 3 "202309" 5 None 1%Z false false false false))
       (enrollments sample_db)
     = Return [member_enrollment; lead_enrollment;
               Enrollment.mk 3 "202309" 5 None 1%Z false false false false].
Proof. split; reflexivity. Qed.

Section MoreExamples.
#[local] Existing Instance sample_datetime.
#[local] Existing Instance sample_index.

Example presentation_embed_url_slides :
  Meeting.presentation_embed_url
    (slides "https://docs.google.com/presentation/d/1McqgFPrXd3efJty39ekgZpj2kVwapkY6iuU6zGFKuEA/edit#slide=id.g550345e1c6_0_74")
  = Some "https://docs.google.com/presentation/d/1McqgFPrXd3efJty39ekgZpj2kVwapkY6iuU6zGFKuEA/embed"
  /\ Meeting.presentation_embed_url
       (slides "https://docs.google.com/presentation/d/short/edit") = None
  /\ Meeting.presentation_embed_url
       (slides "https://example.org/1McqgFPrXd3efJty39ekgZpj2kVwapkY6iuU6zGFKuEA") = None.
Proof. split_and!; reflexivity. Qed.


Example index_context_examples :
  let cache : gmap string (Index.pyval * Z) :=
    {[ "active_semester" := (Index.PSemester spring, 2000%Z);
       "project_count" := (Index.PInt 17, 1500%Z) ]} in
  let anonymous := Index.get_context_data ∅ AnonymousUser sample_db "now" 1000%Z cache in
  let logged_in := Index.get_context_data ∅ (LoggedIn member) sample_db "now" 1000%Z cache in
  anonymous.1 !! "project_count" = Some (Index.PInt 17)
  /\ anonymous.1 !! "enrollment_count" = Some (Index.PInt 3)
  /\ anonymous.2 !! "enrollment_count" = Some (Index.PInt 3, 87400%Z)
  /\ anonymous.1 !! "active_semester_admins" = Some (Index.PEnrollments [lead_enrollment])
  /\ logged_in.1 !! "enrollment" = Some (Index.PEnrollment member_enrollment)
  /\ logged_in.1 !! "project_team_enrollments"
     = Some (Index.PEnrollments [lead_enrollment; member_enrollment])
  /\ logged_in.2 = cache.
Proof. split_and!; reflexivity. Qed.
End MoreExamples.

(** * Further properties of the models *)

(** ** [strip] *)

Section StripFacts.
Implicit Types (cs : list ascii) (s : string).

Lemma lstrip_chars_head cs c rest :
  lstrip_chars cs = c :: rest -> is_space c = false.
Proof.
  induction cs as [|c0 cs IH]; simpl; [done|].
  destruct (is_space c0) eqn:Hc; [done|]. by intros [= <- _].
Qed.

Lemma lstrip_chars_suffix cs : exists front, cs = front ++ lstrip_chars cs
  /\ Forall (fun c => is_space c = true) front.
Proof.
  induction cs as [|c cs (front & IH & Hfront)]; simpl.
  - by exists [].
  - destruct (is_space c) eqn:Hc.
    + exists (c :: front). split; [simpl; by rewrite <- IH|by constructor].
    + by exists [].
Qed.

Lemma lstrip_chars_blank cs :
  Forall (fun c => is_space c = true) cs -> lstrip_chars cs = [].
Proof. induction 1 as [|c cs Hc _ IH]; simpl; [done|]. by rewrite Hc. Qed.

Lemma lstrip_chars_last cs front c :
  (forall front' c', cs = front' ++ [c'] -> is_space c' = false) ->
  lstrip_chars cs = front ++ [c] -> is_space c = false.
Proof.
  intros Hlast Hstrip.
  destruct (lstrip_chars_suffix cs) as (pre & Hcs & _).
  apply (Hlast (pre ++ front) c). by rewrite Hcs at 1; rewrite Hstrip, app_assoc.
Qed.

Lemma rstrip_chars_last cs front c :
  rstrip_chars cs = front ++ [c] -> is_space c = false.
Proof.
  unfold rstrip_chars. intros Hr.
  apply (f_equal reverse) in Hr. rewrite reverse_involutive, reverse_snoc in Hr.
  by eapply lstrip_chars_head.
Qed.

Lemma rstrip_chars_head cs c rest :
  (forall c' rest', cs = c' :: rest' -> is_space c' = false) ->
  rstrip_chars cs = c :: rest -> is_space c = false.
Proof.
  unfold rstrip_chars. intros Hhead Hr.
  apply (f_equal reverse) in Hr. rewrite reverse_involutive, reverse_cons in Hr.
  destruct (lstrip_chars_suffix (reverse cs)) as (pre & Hcs & _).
  rewrite Hr in Hcs. apply (f_equal reverse) in Hcs.
  rewrite reverse_involutive, !reverse_app, reverse_involutive in Hcs.
  simpl in Hcs. by eapply Hhead.
Qed.

Lemma strip_trimmed s : trimmed (strip s).
Proof.
  unfold trimmed, strip. rewrite chars_str. split.
  - intros c rest. apply rstrip_chars_head. intros c' rest'.
    apply lstrip_chars_head.
  - intros front c. apply rstrip_chars_last.
Qed.

(** A literal is seen to be trimmed by looking at its two ends. *)
Lemma trimmed_ends s :
  match chars s with [] => true | c :: _ => negb (is_space c) end = true ->
  match reverse (chars s) with [] => true | c :: _ => negb (is_space c) end = true ->
  trimmed s.
Proof.
  intros Hhead Hlast. split.
  - intros c rest Hs. rewrite Hs in Hhead. by apply negb_true_iff.
  - intros front c Hs. rewrite Hs, reverse_snoc in Hlast. by apply negb_true_iff.
Qed.

Lemma strip_blank s : blank s -> strip s = "".
Proof.
  unfold blank, strip. intros Hb. by rewrite lstrip_chars_blank.
Qed.

Lemma blank_app s1 s2 : blank s1 -> blank s2 -> blank (s1 +:+ s2).
Proof. unfold blank. rewrite chars_app. apply Forall_app_2. Qed.

Lemma truthy_true s : truthy s = true <-> s <> "".
Proof. unfold truthy. rewrite negb_true_iff. apply String.eqb_neq. Qed.

Lemma or_else_nonempty x y : y <> "" -> or_else x y <> "".
Proof.
  unfold or_else. destruct (truthy x) eqn:Hx; [|done].
  intros _. by apply truthy_true.
Qed.
End StripFacts.

(** ** [User.full_name], [User.display_name], [User.is_setup] *)



(** X2. For a user whose role is not RPI, the display name does not depend
    on the RCS ID or on the graduation year: neither is ever shown. *)
Theorem display_name_hides_rpi_fields
    (u : User.t) (rcs_id : string) (graduation_year : option N) :
  User.role u <> User.RPI ->
  UserProperties.display_name (UserProperties.with_rpi_fields rcs_id graduation_year u)
  = UserProperties.display_name u.
Proof.
  intros Hrole. unfold UserProperties.display_name, UserProperties.display_chunks.
  simpl. by rewrite (proj2 (String.eqb_neq _ _) Hrole).
Qed.

Lemma display_name_hides_rpi_fields_witness :
  UserProperties.display_name (UserProperties.with_rpi_fields "pat9" (Some 2031%N) alum)
  = UserProperties.display_name alum.
Proof. by apply display_name_hides_rpi_fields. Defined.



(** [is_setup] is truthy exactly when the first name, the last name,
    the GitHub username and the Discord id are all set. *)
Theorem is_setup_all_four (u : User.t) :
  truthy (UserProperties.is_setup u) = true
  <-> User.first_name u <> "" /\ User.last_name u <> ""
      /\ User.github_username u <> "" /\ User.discord_user_id u <> "".
Proof.
  unfold UserProperties.is_setup. rewrite <- !truthy_true.
  destruct (truthy (User.first_name u)) eqn:H1; simpl;
    [|rewrite H1; split; [done|by intros [? _]]].
  destruct (truthy (User.last_name u)) eqn:H2; simpl;
    [|rewrite H2; split; [done|by intros (_ & ? & _)]].
  destruct (truthy (User.github_username u)) eqn:H3; simpl;
    [|rewrite H3; split; [done|by intros (_ & _ & ? & _)]].
  split; [done|by intros (_ & _ & _ & ?)].
Qed.

(** ** [SmallGroup.display_name] *)

(** The display name of a small group is its name when it has one,
    else its location when it has one, and is never empty. *)
Theorem small_group_display_name (g : SmallGroup.t) :
  SmallGroup.display_name g <> ""
  /\ (SmallGroup.name g <> "" -> SmallGroup.display_name g = SmallGroup.name g)
  /\ (SmallGroup.name g = "" -> SmallGroup.location g <> "" ->
      SmallGroup.display_name g = SmallGroup.location g).
Proof.
  unfold SmallGroup.display_name. split_and!.
  - by apply or_else_nonempty, or_else_nonempty.
  - intros Hn. unfold or_else at 1. by rewrite (proj2 (truthy_true _) Hn).
  - intros -> Hl. unfold or_else. simpl. by rewrite (proj2 (truthy_true _) Hl).
Qed.

Lemma small_group_display_name_witness :
  SmallGroup.display_name (SmallGroup.mk 1 "202301" "" "Sage 3101" "" "") = "Sage 3101".
Proof. by apply small_group_display_name. Defined.

(** ** The label and the colour of a meeting *)

Section MeetingLabels.
Context `{Datetime}.

Lemma type_label_and_color_cases (v : string) :
  (exists label,
     (v, label) ∈ Meeting.TYPE_CHOICES
     /\ Meeting.choice_label Meeting.TYPE_CHOICES v = label /\ label <> ""
     /\ exists c, MeetingDisplay.dict_get MeetingDisplay.TYPE_COLORS v = Some c
          /\ c <> "grey")
  \/ ((forall label, (v, label) ∉ Meeting.TYPE_CHOICES)
      /\ Meeting.choice_label Meeting.TYPE_CHOICES v = v
      /\ MeetingDisplay.dict_get MeetingDisplay.TYPE_COLORS v = None).
Proof.
  destruct (decide (v ∈ Meeting.TYPE_CHOICES.*1)) as [Hin|Hout].
  - left. simpl in Hin.
    repeat (apply elem_of_cons in Hin as [->|Hin]);
      [| | | | |by apply elem_of_nil in Hin];
      (eexists; split_and!; [|reflexivity|done|by eexists]);
      unfold Meeting.TYPE_CHOICES; set_solver.
  - right. simpl in Hout. rewrite !not_elem_of_cons in Hout.
    destruct Hout as (H1 & H2 & H3 & H4 & H5 & _).
    split_and!.
    + intros label Hl. unfold Meeting.TYPE_CHOICES in Hl.
      repeat (apply elem_of_cons in Hl as [[= ? ?]|Hl]); try done.
      by apply elem_of_nil in Hl.
    + cbn -[String.eqb]. by rewrite !(proj2 (String.eqb_neq _ _)) by done.
    + cbn -[String.eqb]. by rewrite !(proj2 (String.eqb_neq _ _)) by done.
Qed.

(** X4. The two tables of [Meeting] agree: a type that is one of
    [TYPE_CHOICES] is displayed by its label and has a colour other than
    grey; any other type is displayed as it is stored, in grey. *)
Theorem meeting_type_label_and_color (m : Meeting.t) :
  (exists label,
     (Meeting.type m, label) ∈ Meeting.TYPE_CHOICES
     /\ Meeting.get_type_display m = label
     /\ MeetingDisplay.color m <> "grey")
  \/ ((forall label, (Meeting.type m, label) ∉ Meeting.TYPE_CHOICES)
      /\ Meeting.get_type_display m = Meeting.type m
      /\ MeetingDisplay.color m = "grey").
Proof.
  unfold Meeting.get_type_display, MeetingDisplay.color.
  destruct (type_label_and_color_cases (Meeting.type m))
    as [(label & Hin & Hl & _ & c & -> & Hc)|(Hout & Hl & ->)].
  - left. by exists label.
  - by right.
Qed.

(** X5. The display name of a meeting is empty only when both its name and
    its type are empty. *)
Theorem meeting_display_name_empty (m : Meeting.t) :
  Meeting.display_name m = "" <-> Meeting.name m = "" /\ Meeting.type m = "".
Proof.
  unfold Meeting.display_name.
  destruct (truthy (Meeting.name m)) eqn:Hn.
  - apply truthy_true in Hn. split; [done|by intros [? _]].
  - apply truthy_false in Hn. unfold Meeting.get_type_display.
    destruct (type_label_and_color_cases (Meeting.type m))
      as [(l & Hin & -> & Hl & _)|(Hno & -> & _)].
    + split; [done|]. intros [_ Ht]. rewrite Ht in Hin.
      unfold Meeting.TYPE_CHOICES in Hin.
      repeat (apply elem_of_cons in Hin as [[= ? ?]|Hin]); try done.
      by apply elem_of_nil in Hin.
    + split; [done|by intros [_ ?]].
Qed.
End MeetingLabels.

(** ** The queries *)

Section SortedFacts.
Context {A : Type} (R : relation A) `{forall x y, Decision (R x y)}.

Lemma head_merge_sort_None (l : list A) :
  head (merge_sort R l) = None <-> l = [].
Proof.
  rewrite head_None. split.
  - intros Hnil. apply Permutation_nil_r. rewrite <- Hnil.
    symmetry. apply merge_sort_Permutation.
  - by intros ->.
Qed.

(** The head of the sorted list is an element that may come before all. *)
Lemma head_merge_sort_Some `{!Transitive R, !Total R} (l : list A) (x : A) :
  head (merge_sort R l) = Some x ->
  x ∈ l /\ forall y, y ∈ l -> R x y.
Proof.
  intros Hhead.
  pose proof (StronglySorted_merge_sort R l) as Hsorted.
  pose proof (merge_sort_Permutation R l) as Hperm.
  destruct (merge_sort R l) as [|x' l'] eqn:Hl; simplify_eq/=.
  apply StronglySorted_cons in Hsorted as [Hall _].
  rewrite Forall_forall in Hall. split.
  - rewrite <- Hperm. left.
  - intros y Hy. rewrite <- Hperm in Hy.
    apply elem_of_cons in Hy as [->|Hy]; [|by apply Hall].
    by destruct (total R x x).
Qed.

Lemma StronglySorted_lookup_lt (l : list A) (i j : nat) (x y : A) :
  StronglySorted R l -> i < j -> l !! i = Some x -> l !! j = Some y -> R x y.
Proof.
  intros Hsorted. revert i j.
  induction Hsorted as [|z l Hsorted IH Hall]; intros i j Hij Hi Hj; [done|].
  destruct j as [|j]; [lia|]. destruct i as [|i]; simplify_eq/=.
  - rewrite Forall_forall in Hall. apply Hall. by eapply list_elem_of_lookup_2.
  - apply (IH i j); [lia|done..].
Qed.
End SortedFacts.


#[local] Instance newest_first_trans : Transitive Queries.newest_first.
Proof. unfold Queries.newest_first. intros x y z ??. lia. Qed.
#[local] Instance newest_first_total : Total Queries.newest_first.
Proof. unfold Queries.newest_first. intros x y. lia. Qed.
#[local] Instance advisors_last_trans : Transitive Queries.advisors_last.
Proof. unfold Queries.advisors_last. intros x y z ??. auto. Qed.
#[local] Instance advisors_last_total : Total Queries.advisors_last.
Proof.
  unfold Queries.advisors_last. intros x y.
  destruct (Enrollment.is_faculty_advisor x); [right|left]; done.
Qed.
#[local] Instance by_pk_trans : Transitive Queries.by_pk.
Proof. unfold Queries.by_pk. intros x y z ??. lia. Qed.
#[local] Instance by_pk_total : Total Queries.by_pk.
Proof. unfold Queries.by_pk. intros x y. lia. Qed.

(** X6. [Semester.get_active] agrees with [Semester.is_active]: it returns
    nothing exactly when no semester is active on that day, and otherwise
    an active semester of the table whose first day is the latest among the
    active ones. *)
Theorem get_active_is_active (semesters : list Semester.t) (now : date) :
  (Queries.get_active semesters now = None
   <-> forall s, s ∈ semesters -> Semester.is_active now s = false)
  /\ (forall s, Queries.get_active semesters now = Some s ->
        s ∈ semesters /\ Semester.is_active now s = true
        /\ forall s', s' ∈ semesters -> Semester.is_active now s' = true ->
             (Semester.start_date s' <= Semester.start_date s)%Z).
Proof.
  unfold Queries.get_active. split.
  - rewrite head_merge_sort_None. split.
    + intros Hnil s Hs. apply not_true_is_false. intros Hact%is_active_spec.
      assert (s ∈ filter (fun s => (Semester.start_date s <= now)%Z
                                   /\ (now <= Semester.end_date s)%Z) semesters) as Hin
        by (by apply list_elem_of_filter).
      rewrite Hnil in Hin. by apply elem_of_nil in Hin.
    + intros Hnone. destruct (filter _ semesters) as [|s l] eqn:Hf; [done|].
      assert (s ∈ s :: l) as Hin by left. rewrite <- Hf in Hin.
      apply list_elem_of_filter in Hin as [Hact%is_active_spec Hs].
      by rewrite (Hnone s Hs) in Hact.
  - intros s Hhead.
    destruct (head_merge_sort_Some Queries.newest_first _ s Hhead) as [Hin Hfirst].
    apply list_elem_of_filter in Hin as [Hact Hin]. split_and!; [done| |].
    + by apply is_active_spec.
    + intros s' Hs' Hact'%is_active_spec. apply (Hfirst s').
      by apply list_elem_of_filter.
Qed.

Lemma get_active_is_active_witness :
  Semester.is_active 738600%Z spring = true.
Proof.
  apply (proj2 (get_active_is_active [fall; spring; closed_spring] 738600%Z) spring).
  reflexivity.
Defined.

(** X7. A semester never has more projects than enrollments, and has no
    project exactly when it has no enrollment (enrollments without a project
    count together as one). *)
Theorem project_count_bounds (rows : list Enrollment.t) (s : Semester.t) :
  Queries.project_count rows s <= Queries.enrollment_count rows s
  /\ (Queries.project_count rows s = 0 <-> Queries.enrollment_count rows s = 0).
Proof.
  unfold Queries.project_count, Queries.enrollment_count.
  set (l := Queries.semester_enrollments rows s).
  assert (forall k : list (option nat), length (remove_dups k) <= length k) as Hle.
  { intros k. induction k as [|x k IH]; simpl; [lia|].
    destruct (decide_rel _ _ _); simpl; lia. }
  split.
  - etrans; [apply Hle|]. by rewrite length_fmap.
  - rewrite !length_zero_iff_nil. split.
    + intros Hnil. destruct l as [|e l']; [done|].
      assert (Enrollment.project e ∈ remove_dups (Enrollment.project <$> e :: l'))
        as Hin by (apply elem_of_remove_dups; left).
      rewrite Hnil in Hin. by apply elem_of_nil in Hin.
    + by intros ->.
Qed.

Lemma get_admins_Permutation (rows : list Enrollment.t) (s : Semester.t) :
  Queries.get_admins rows s
    ≡ₚ filter (fun e => Enrollment.semester e = Semester.id s
                        /\ (Enrollment.is_coordinator e = true
                            \/ Enrollment.is_faculty_advisor e = true)) rows.
Proof.
  unfold Queries.get_admins, Queries.semester_enrollments.
  rewrite merge_sort_Permutation, list_filter_filter.
  apply reflexive_eq, list_filter_iff. tauto.
Qed.

(** X8. [Semester.get_admins] lists exactly the enrollments of the
    semester that are coordinators or faculty advisors, each once for each
    row, and no faculty advisor comes before an admin who is not one. *)
Theorem get_admins_members_and_order (rows : list Enrollment.t) (s : Semester.t) :
  Queries.get_admins rows s
    ≡ₚ filter (fun e => Enrollment.semester e = Semester.id s
                        /\ (Enrollment.is_coordinator e = true
                            \/ Enrollment.is_faculty_advisor e = true)) rows
  /\ forall i j e1 e2,
       i < j ->
       Queries.get_admins rows s !! i = Some e1 ->
       Queries.get_admins rows s !! j = Some e2 ->
       Enrollment.is_faculty_advisor e1 = true ->
       Enrollment.is_faculty_advisor e2 = true.
Proof.
  split; [apply get_admins_Permutation|].
  unfold Queries.get_admins, Queries.semester_enrollments.
  - intros i j e1 e2 Hij Hi Hj.
    eapply (StronglySorted_lookup_lt Queries.advisors_last); [|done..].
    apply (StronglySorted_merge_sort _).
Qed.

Lemma get_admins_members_and_order_witness :
  Enrollment.is_faculty_advisor advisor_a = true.
Proof.
  apply (proj2 (get_admins_members_and_order
                  [advisor_a; lead_enrollment; advisor_b] spring) 1 2 advisor_b advisor_a);
    [lia|reflexivity..].
Defined.

Section DashboardAdmins.
Context `{IndexServices}.

(** X9. The administrators that the anonymous dashboard caches for a
    semester are those that [Semester.get_admins] returns, up to order. *)
Theorem semester_admins_are_get_admins (db : Database) (s : Semester.t) :
  Index.semester_admins db (Some s) ≡ₚ Queries.get_admins (enrollments db) s.
Proof.
  rewrite get_admins_Permutation. unfold Index.semester_admins.
  apply reflexive_eq, list_filter_iff. tauto.
Qed.
End DashboardAdmins.

Lemma semesters_joined_elem selected semesters rows s :
  s ∈ Queries.semesters_joined selected semesters rows
  <-> s ∈ semesters
      /\ exists e, e ∈ rows /\ Enrollment.semester e = Semester.id s
                   /\ selected e = true.
Proof.
  unfold Queries.semesters_joined. rewrite list_elem_of_bind. split.
  - intros (s' & (e & -> & He)%list_elem_of_fmap & Hs).
    apply list_elem_of_filter in He as [[? ?] ?]. eauto.
  - intros (Hs & e & He & Hsem & Hsel). exists s. split; [|done].
    apply list_elem_of_fmap. exists e. split; [done|].
    by apply list_elem_of_filter.
Qed.

Lemma semesters_of_spec selected semesters rows :
  NoDup (Queries.semesters_of selected semesters rows)
  /\ (forall s, s ∈ Queries.semesters_of selected semesters rows
        <-> s ∈ semesters
            /\ exists e, e ∈ rows /\ Enrollment.semester e = Semester.id s
                         /\ selected e = true)
  /\ (forall i j s1 s2,
        i < j ->
        Queries.semesters_of selected semesters rows !! i = Some s1 ->
        Queries.semesters_of selected semesters rows !! j = Some s2 ->
        (Semester.start_date s2 <= Semester.start_date s1)%Z).
Proof.
  unfold Queries.semesters_of. split_and!.
  - rewrite merge_sort_Permutation. apply NoDup_remove_dups.
  - intros s. rewrite merge_sort_Permutation, elem_of_remove_dups.
    apply semesters_joined_elem.
  - intros i j s1 s2 Hij Hi Hj.
    eapply (StronglySorted_lookup_lt Queries.newest_first); [|done..].
    apply (StronglySorted_merge_sort _).
Qed.

(** X10. [User.get_active_semesters] returns, without repetition and from
    the newest first day to the oldest, exactly the semesters in which the
    user has an enrollment. *)
Theorem user_get_active_semesters_spec
    (semesters : list Semester.t) (rows : list Enrollment.t) (u : User.t) :
  NoDup (Queries.user_get_active_semesters semesters rows u)
  /\ (forall s, s ∈ Queries.user_get_active_semesters semesters rows u
        <-> s ∈ semesters
            /\ exists e, e ∈ rows /\ Enrollment.semester e = Semester.id s
                         /\ Enrollment.user e = User.id u)
  /\ (forall i j s1 s2,
        i < j ->
        Queries.user_get_active_semesters semesters rows u !! i = Some s1 ->
        Queries.user_get_active_semesters semesters rows u !! j = Some s2 ->
        (Semester.start_date s2 <= Semester.start_date s1)%Z).
Proof.
  unfold Queries.user_get_active_semesters.
  destruct (semesters_of_spec
              (fun e => bool_decide (Enrollment.user e = User.id u)) semesters rows)
    as (Hnd & Hin & Hsorted).
  split_and!; [done| |done].
  intros s. rewrite Hin. by setoid_rewrite bool_decide_eq_true.
Qed.



(** X12. [Project.is_seeking_members] returns nothing exactly when the
    project has no pitch for the semester; what it returns is such a
    pitch; and with at most one pitch for every semester and project, it
    returns the pitch whenever there is one. *)
Theorem is_seeking_members_spec
    (pitches : list ProjectPitch.t) (p : Project.t) (sem : Semester.t) :
  (Queries.is_seeking_members pitches p sem = None
   <-> forall r, r ∈ pitches ->
         ~ (ProjectPitch.semester r = Semester.id sem
            /\ ProjectPitch.project r = Project.id p))
  /\ (forall r, Queries.is_seeking_members pitches p sem = Some r ->
        r ∈ pitches /\ ProjectPitch.semester r = Semester.id sem
        /\ ProjectPitch.project r = Project.id p)
  /\ (pitch_unique pitches ->
      forall r, r ∈ pitches ->
        ProjectPitch.semester r = Semester.id sem ->
        ProjectPitch.project r = Project.id p ->
        Queries.is_seeking_members pitches p sem = Some r).
Proof.
  unfold Queries.is_seeking_members. rewrite list_filter_filter.
  set (l := filter _ pitches).
  assert (forall r, r ∈ l <-> r ∈ pitches /\ ProjectPitch.semester r = Semester.id sem
                              /\ ProjectPitch.project r = Project.id p) as Hl.
  { intros r. unfold l. rewrite list_elem_of_filter. tauto. }
  split_and!.
  - rewrite head_merge_sort_None. split.
    + intros Hnil r Hr [? ?]. assert (r ∈ l) as Hin by (by apply Hl).
      rewrite Hnil in Hin. by apply elem_of_nil in Hin.
    + intros Hnone. destruct l as [|r l'] eqn:El; [done|].
      assert (r ∈ r :: l') as Hin by left.
      apply Hl in Hin as (? & ? & ?). by destruct (Hnone r).
  - intros r Hhead.
    destruct (head_merge_sort_Some Queries.by_pk _ r Hhead) as [Hin _].
    by apply Hl.
  - intros Huniq r Hr Hsem Hproj.
    assert (r ∈ l) as Hin by (by apply Hl).
    assert (length l <= 1) as Hlen.
    { etrans; [|apply (Huniq (Semester.id sem) (Project.id p))].
      unfold l. apply reflexive_eq. f_equal. apply list_filter_iff. tauto. }
    destruct l as [|r1 [|r2 l']]; simpl in Hlen; [by apply elem_of_nil in Hin| |lia].
    apply list_elem_of_singleton in Hin as ->.
    change (head (merge_sort Queries.by_pk [r1]) = Some r1).
    pose proof (merge_sort_Permutation Queries.by_pk [r1]) as Hperm.
    apply Permutation_singleton_r in Hperm. by rewrite Hperm.
Qed.

Lemma is_seeking_members_spec_witness :
  Queries.is_seeking_members [telescope_pitch] telescope spring = Some telescope_pitch.
Proof.
  apply (proj2 (proj2 (is_seeking_members_spec [telescope_pitch] telescope spring))).
  - apply pitch_unique_NoDup. compute_done.
  - by left.
  - reflexivity.
  - reflexivity.
Defined.

(** ** More on saving a meeting *)

Section SaveEdgeCases.
Context `{Datetime} `{DiscordService}.
Implicit Types (m : Meeting.t) (w : Meeting.World).
#[local] Arguments Meeting.sync_payload : simpl never.
#[local] Arguments Meeting.save : simpl never.

(** X13. If the platform answers every creation with an empty id, saving a
    published meeting that has no event id never returns: at every depth
    of nested calls allowed, the result is [RecursionError]. *)
Theorem save_recursion_on_empty_id (depth : nat) m w :
  (forall log p, exists event,
     create_server_event log p = Return event /\ event !! "id" = Some "") ->
  Meeting.is_published m = true ->
  Meeting.discord_event_id m = "" ->
  (Meeting.save depth m w).1 = Raise RecursionError.
Proof.
  intros Hempty. revert m w. induction depth as [|d IH]; intros m w Hpub Hid.
  - done.
  - rewrite save_unfold.
    destruct (write_row_fields m w) as (Hpub1 & Hid1 & _).
    unfold Meeting.sync_discord_event.
    rewrite Hpub1, Hpub, Hid1, Hid. simpl.
    destruct (Hempty (Meeting.discord_log (Meeting.write_row m w).2)
                (Meeting.sync_payload (Meeting.write_row m w).1))
      as (event & -> & ->).
    apply IH; [|done]. simpl. by rewrite Hpub1.
Qed.

(** X14. When the creation of the remote event fails, [save] raises the
    same exception, after exactly one call, and the row of the meeting has
    been written all the same, without an event id. *)
Theorem save_keeps_row_when_create_fails (d : nat) m w (e : exn) :
  Meeting.is_published m = true ->
  Meeting.discord_event_id m = "" ->
  create_server_event (Meeting.discord_log w)
    (Meeting.sync_payload (Meeting.write_row m w).1) = Raise e ->
  (Meeting.save (S d) m w).1 = Raise e
  /\ Meeting.discord_log (Meeting.save (S d) m w).2
     = Meeting.discord_log w
       ++ [CreateServerEvent (Meeting.sync_payload (Meeting.write_row m w).1)]
  /\ exists k m1,
       Meeting.pk m1 = Some k
       /\ Meeting.meetings (Meeting.save (S d) m w).2 !! k = Some m1
       /\ Meeting.discord_event_id m1 = ""
       /\ m1 = (Meeting.write_row m w).1.
Proof.
  intros Hpub Hid Hfail. rewrite save_unfold.
  destruct (write_row_fields m w) as (Hpub1 & Hid1 & Hlog & k & Hk & Hrow).
  unfold Meeting.sync_discord_event.
  rewrite Hpub1, Hpub, Hid1, Hid, Hlog, Hfail. simpl. split_and!.
  - done.
  - by rewrite Hlog.
  - exists k, (Meeting.write_row m w).1. split_and!; try done. congruence.
Qed.
End SaveEdgeCases.

Section SaveEdgeExamples.
#[local] Existing Instance sample_datetime.

Lemma save_recursion_on_empty_id_witness :
  (@Meeting.save sample_datetime forgetful_discord 40 (workshop true "") empty_world).1
  = Raise RecursionError.
Proof.
  apply (@save_recursion_on_empty_id sample_datetime forgetful_discord).
  - intros log p. by eexists.
  - reflexivity.
  - reflexivity.
Defined.

Lemma save_keeps_row_when_create_fails_witness :
  (@Meeting.save sample_datetime failing_discord 3 (workshop true "") empty_world).1
  = Raise (HTTPError 503).
Proof.
  by apply (@save_keeps_row_when_create_fails sample_datetime failing_discord).
Defined.
End SaveEdgeExamples.

(** ** The embed URL, once more *)

Section EmbedAgain.
Context `{Datetime}.

(** X15. Putting an embed URL back as the presentation URL of a meeting
    gives the same embed URL again. *)
Theorem presentation_embed_url_idempotent (m m' : Meeting.t) (e : string) :
  Meeting.presentation_embed_url m = Some e ->
  Meeting.presentation_url m' = e ->
  Meeting.presentation_embed_url m' = Some e.
Proof.
  intros He Hurl.
  unfold Meeting.presentation_embed_url in He.
  destruct (truthy _ && contains _ _); [|done].
  destruct (Re.search _) as [r|] eqn:Hs; [|done]. injection He as <-.
  apply search_first in Hs as (_ & _ & _ & Hr & Hlen & _).
  unfold Meeting.presentation_embed_url. rewrite Hurl.
  assert (truthy ("https://docs.google.com/presentation/d/" +:+ str r +:+ "/embed")
          = true) as -> by done.
  assert (contains "docs.google.com/presentation/d"
            ("https://docs.google.com/presentation/d/" +:+ str r +:+ "/embed") = true)
    as ->.
  { apply contains_spec. by exists "https://", ("/" +:+ str r +:+ "/embed"). }
  cbn [andb]. rewrite (first_long_run_search _ r); [done|].
  exists (chars "https://docs.google.com/presentation/d/"), (chars "/embed").
  split_and!; try done.
  - by rewrite !chars_app, chars_str.
  - intros b c Hb. apply (f_equal reverse) in Hb.
    rewrite reverse_snoc in Hb. by injection Hb as <- _.
  - by intros c a [= <- _].
  - intros b r' a Hb Hr'. apply Nat.lt_nge. intros Hlong.
    assert (Re.search (chars "https://docs.google.com/presentation/d/") = None)
      as Hnone by reflexivity.
    apply search_None in Hnone. apply Hnone. by exists b, r', a.
Qed.
End EmbedAgain.

Section EmbedAgainExample.
#[local] Existing Instance sample_datetime.

Lemma presentation_embed_url_idempotent_witness :
  Meeting.presentation_embed_url
    (slides "https://docs.google.com/presentation/d/1McqgFPrXd3efJty39ekgZpj2kVwapkY6iuU6zGFKuEA/embed")
  = Some "https://docs.google.com/presentation/d/1McqgFPrXd3efJty39ekgZpj2kVwapkY6iuU6zGFKuEA/embed".
Proof.
  apply (presentation_embed_url_idempotent
           (slides "https://docs.google.com/presentation/d/1McqgFPrXd3efJty39ekgZpj2kVwapkY6iuU6zGFKuEA/edit"));
    reflexivity.
Defined.
End EmbedAgainExample.

(** ** More on the views *)

Section LinkCallbackMore.
Context `{DiscordService}.

Lemma save_persisted_user i u w :
  User.state_adding u = false ->
  Auth.save_user (User.set_discord_user_id i u) w
  = Auth.mkWorld (<[User.id u := User.set_discord_user_id i u]> (Auth.users w))
      (Auth.discord_log w).
Proof.
  intros Hadd. unfold Auth.save_user, pre_save_user. simpl. rewrite Hadd. simpl.
  destruct u; simpl in *; by subst.
Qed.


(** X17. When the token exchange raises, no request for the user's
    information is made and nothing is stored; an [HTTPError] is handed
    back as the response, any other exception propagates. *)
Theorem discord_link_callback_failed_exchange
    (req : Auth.request) (u : User.t) (w : Auth.World) (code : string) (e : exn) :
  Auth.user req = LoggedIn u ->
  Auth.querydict_get (Auth.GET req) "code" = Some code ->
  code <> "" ->
  get_tokens (Auth.discord_log w) code = Raise e ->
  Auth.discord_link_callback_view req w
  = (match e with
     | HTTPError _ => Return (Auth.Returned e)
     | _ => Raise e
     end,
     Auth.mkWorld (Auth.users w) (Auth.discord_log w ++ [GetTokens code])).
Proof.
  intros Huser Hcode Hne Hfail.
  unfold Auth.discord_link_callback_view, Auth.login_required. rewrite Huser.
  unfold Auth.discord_link_callback.
  rewrite Hcode, (proj2 (truthy_true _) Hne), Hfail. simpl. by destruct e.
Qed.
End LinkCallbackMore.

Section LinkMoreExamples.
#[local] Existing Instance sample_discord.


Lemma discord_link_callback_failed_exchange_witness :
  Auth.discord_link_callback_view
    (Auth.mkRequest [("code", "expired")] (LoggedIn linked_user)) auth_world
  = (Return (Auth.Returned (HTTPError 400)),
     Auth.mkWorld (Auth.users auth_world) [GetTokens "expired"]).
Proof.
  by apply (discord_link_callback_failed_exchange _ linked_user auth_world "expired"
              (HTTPError 400)).
Defined.
End LinkMoreExamples.

Lemma get_by_email_Return users email user :
  Impersonate.get_by_email users email = Return user ->
  user ∈ users /\ User.email user = email.
Proof.
  unfold Impersonate.get_by_email.
  destruct (filter _ users) as [|u [|u' l]] eqn:Hf; [done| |done].
  intros [= <-]. assert (u ∈ [u]) as Hin by left.
  rewrite <- Hf in Hin. by apply list_elem_of_filter in Hin as [? ?].
Qed.

(** X18. Outside debug mode, a requester who is not a superuser (the
    anonymous user included) is redirected to ["/"] with the session as it
    was, whatever the query string.  The session user changes only in
    debug mode or for a superuser, and then to a user of the table with the
    email asked for; a missing email or an unknown one raises and leaves
    the session alone. *)
Theorem impersonate_needs_debug_or_superuser
    (DEBUG : bool) (is_superuser : nat -> bool)
    (users : list User.t) (req : Auth.request) :
  (DEBUG = false ->
   Impersonate.requester_is_superuser is_superuser (Auth.user req) = false ->
   Impersonate.impersonate DEBUG is_superuser users req
   = (Return (Auth.Redirect "/"), Auth.user req))
  /\ ((Impersonate.impersonate DEBUG is_superuser users req).2 = Auth.user req
      \/ exists user email,
           (DEBUG = true
            \/ Impersonate.requester_is_superuser is_superuser (Auth.user req) = true)
           /\ Auth.querydict_get (Auth.GET req) "email" = Some email
           /\ user ∈ users /\ User.email user = email
           /\ Impersonate.impersonate DEBUG is_superuser users req
              = (Return (Auth.Redirect "/"), LoggedIn user))
  /\ (DEBUG = true ->
      (forall v, ("email", v) ∉ Auth.GET req) ->
      Impersonate.impersonate DEBUG is_superuser users req
      = (Raise (KeyError "email"), Auth.user req)).
Proof.
  unfold Impersonate.impersonate, Impersonate.querydict_getitem. split_and!.
  - by intros -> ->.
  - destruct (DEBUG || _) eqn:Hgate; [|by left].
    destruct (Auth.querydict_get (Auth.GET req) "email") as [email|]; [|by left].
    destruct (Impersonate.get_by_email users email) as [user|e] eqn:Hget; [|by left].
    right. apply get_by_email_Return in Hget as [Hin Hmail].
    exists user, email. split_and!; try done. by apply orb_true_iff.
  - intros -> Habsent. simpl.
    by rewrite (proj2 (querydict_get_None _ _) Habsent).
Qed.

Lemma impersonate_needs_debug_or_superuser_witness :
  Impersonate.impersonate false (fun k => bool_decide (k = 5)) [member; linked_user]
    (Auth.mkRequest [("email", "kim@rpi.edu")] (LoggedIn linked_user))
  = (Return (Auth.Redirect "/"), LoggedIn linked_user)
  /\ Impersonate.impersonate true (fun k => bool_decide (k = 5)) [member; linked_user]
       (Auth.mkRequest [("mail", "kim@rpi.edu")] AnonymousUser)
     = (Raise (KeyError "email"), AnonymousUser).
Proof.
  split.
  - by apply impersonate_needs_debug_or_superuser.
  - apply impersonate_needs_debug_or_superuser; [done|].
    intros v [[= ? ?]|Hin%elem_of_nil]%elem_of_cons; done.
Defined.

(** With the same superuser flag, a superuser does switch. *)
Example impersonate_as_superuser :
  Impersonate.impersonate false (fun k => bool_decide (k = 12)) [member; linked_user]
    (Auth.mkRequest [("email", "kim@rpi.edu")] (LoggedIn linked_user))
  = (Return (Auth.Redirect "/"), LoggedIn member).
Proof. reflexivity. Qed.

(** ** The cached counts of the dashboard over time *)

Section CachedCounts.
Context `{IndexServices}.
Implicit Types (cache : gmap string (Index.pyval * Z)) (data : gmap string Index.pyval).

Lemma anonymous_counts_served base db now clock cache :
  let anonymous := Index.get_context_data base AnonymousUser db now clock cache in
  served_from_cache cache clock anonymous.1 anonymous.2
    "enrollment_count" (Index.PInt (length (enrollments db)))
  /\ served_from_cache cache clock anonymous.1 anonymous.2
       "project_count" (Index.PInt (length (projects db))).
Proof.
  unfold Index.get_context_data.
  set (fresh1 := Index.PInt (length (enrollments db))).
  set (fresh2 := Index.PInt (length (projects db))).
  set (fresh3 := Index.PEnrollments _).
  pose proof (cache_get_or_set_served cache clock "enrollment_count" fresh1) as H1.
  destruct (Index.cache_get_or_set cache clock "enrollment_count" fresh1 _)
    as [v1 c1] eqn:E1.
  pose proof (cache_get_or_set_served c1 clock "project_count" fresh2) as H2.
  pose proof (cache_get_other cache clock "enrollment_count" fresh1
                Index.one_day "project_count" ltac:(done)) as G2.
  pose proof (cache_get_or_set_other cache clock "enrollment_count" fresh1
                Index.one_day "project_count" ltac:(done)) as L2.
  rewrite E1 in G2, L2. simpl in H1, G2, L2.
  pose proof (cache_get_or_set_other c1 clock "project_count" fresh2
                Index.one_day "enrollment_count" ltac:(done)) as L1b.
  destruct (Index.cache_get_or_set c1 clock "project_count" fresh2 _)
    as [v2 c2] eqn:E2.
  simpl in H2, L1b.
  pose proof (cache_get_or_set_other c2 clock "active_semester_admins" fresh3
                Index.one_day "enrollment_count" ltac:(done)) as L1c.
  pose proof (cache_get_or_set_other c2 clock "active_semester_admins" fresh3
                Index.one_day "project_count" ltac:(done)) as L2c.
  destruct (Index.cache_get_or_set c2 clock "active_semester_admins" fresh3 _)
    as [v3 c3] eqn:E3.
  simpl in L1c, L2c. simpl.
  unfold served_from_cache. split.
  - rewrite L1c, L1b.
    destruct (Index.cache_get cache clock "enrollment_count");
      destruct H1 as [-> ->]; by simplify_map_eq.
  - rewrite L2c. rewrite G2 in H2. rewrite <- L2.
    destruct (Index.cache_get cache clock "project_count");
      destruct H2 as [-> ->]; by simplify_map_eq.
Qed.

Lemma served_again cache clock data cache' key fresh clock2 data2 cache2 fresh2 :
  served_from_cache cache clock data cache' key fresh ->
  Index.cache_get cache clock key = None ->
  served_from_cache cache' clock2 data2 cache2 key fresh2 ->
  ((clock2 < clock + 86400)%Z -> data2 !! key = Some fresh)
  /\ ((clock + 86400 <= clock2)%Z -> data2 !! key = Some fresh2).
Proof.
  unfold served_from_cache. intros Hfirst Hmiss Hsecond.
  rewrite Hmiss in Hfirst. destruct Hfirst as [_ Hentry].
  unfold Index.cache_get in Hsecond at 1. rewrite Hentry in Hsecond.
  split; intros Hclock.
  - rewrite (proj2 (Z.ltb_lt _ _) Hclock) in Hsecond. by destruct Hsecond.
  - rewrite (proj2 (Z.ltb_ge _ _) Hclock) in Hsecond. by destruct Hsecond.
Qed.

End CachedCounts.

Section CachedCountsExample.
#[local] Existing Instance sample_datetime.
#[local] Existing Instance sample_index.

End CachedCountsExample.

(** ** Deletions *)

Lemma delete_project_enrollment_keys pid db :
  enrollment_key <$> enrollments (Deletion.delete_project pid db)
  = enrollment_key <$> enrollments db.
Proof.
  unfold Deletion.delete_project. simpl. rewrite <- list_fmap_compose.
  apply list_fmap_ext. intros _ e _. simpl. by destruct (decide _).
Qed.

Lemma delete_project_unique pid db :
  enrollment_unique (enrollments db) ->
  enrollment_unique (enrollments (Deletion.delete_project pid db)).
Proof.
  rewrite !enrollment_unique_NoDup. by rewrite delete_project_enrollment_keys.
Qed.

Lemma delete_project_elem pid db e' :
  e' ∈ enrollments (Deletion.delete_project pid db) ->
  exists e, e ∈ enrollments db
    /\ Enrollment.user e' = Enrollment.user e
    /\ Enrollment.semester e' = Enrollment.semester e
    /\ ((Enrollment.project e = Some pid /\ Enrollment.project e' = None)
        \/ (Enrollment.project e <> Some pid /\ e' = e)).
Proof.
  unfold Deletion.delete_project. simpl.
  intros (e & -> & He)%list_elem_of_fmap. exists e.
  destruct (decide _) as [Hp|Hp]; split_and!; try done; [by left|by right].
Qed.

(** X20. Deleting a project deletes no enrollment: every enrollment keeps
    its id, user and semester, those that referred to the project now
    refer to none, the others are unchanged, and the enrollments are still
    unique for every user and semester.  The pitches of the project are
    deleted, the others kept. *)
Theorem delete_project_keeps_enrollments
    (pid : nat) (db : Database) (pitches : list ProjectPitch.t) :
  Enrollment.id <$> enrollments (Deletion.delete_project pid db)
    = Enrollment.id <$> enrollments db
  /\ enrollment_key <$> enrollments (Deletion.delete_project pid db)
     = enrollment_key <$> enrollments db
  /\ (forall e, e ∈ enrollments (Deletion.delete_project pid db) ->
        Enrollment.project e <> Some pid)
  /\ (forall e, e ∈ enrollments db -> Enrollment.project e <> Some pid ->
        e ∈ enrollments (Deletion.delete_project pid db))
  /\ (enrollment_unique (enrollments db) ->
      enrollment_unique (enrollments (Deletion.delete_project pid db)))
  /\ (forall r, r ∈ Deletion.delete_project_pitches pid pitches
        <-> r ∈ pitches /\ ProjectPitch.project r <> pid).
Proof.
  split_and!.
  - unfold Deletion.delete_project. simpl. rewrite <- list_fmap_compose.
    apply list_fmap_ext. intros _ e _. simpl. by destruct (decide _).
  - apply delete_project_enrollment_keys.
  - intros e' (e & _ & _ & _ & [[_ Hnone]|[Hp ->]])%delete_project_elem; [|done].
    by rewrite Hnone.
  - intros e He Hp. unfold Deletion.delete_project. simpl.
    apply list_elem_of_fmap. exists e. split; [|done]. by destruct (decide _).
  - apply delete_project_unique.
  - intros r. unfold Deletion.delete_project_pitches.
    rewrite list_elem_of_filter. tauto.
Qed.

Lemma delete_project_keeps_enrollments_witness :
  enrollment_unique (enrollments (Deletion.delete_project 40 sample_db)).
Proof.
  apply (delete_project_keeps_enrollments 40 sample_db []).
  exact sample_enrollments_unique.
Defined.

(** X21. After a user is deleted, no enrollment is theirs and no project
    has them as owner; the projects are all still there, the ones they
    owned without an owner, and the enrollments of the other users are
    untouched. *)
Theorem delete_user_cascades (u : User.t) (db : Database) :
  (forall e, e ∈ enrollments (Deletion.delete_user (User.id u) db) <->
     e ∈ enrollments db /\ Enrollment.user e <> User.id u)
  /\ owned_projects_count (Deletion.delete_user (User.id u) db) u = 0
  /\ Project.id <$> projects (Deletion.delete_user (User.id u) db)
     = Project.id <$> projects db
  /\ (forall p, p ∈ projects db -> Project.owner p <> Some (User.id u) ->
        p ∈ projects (Deletion.delete_user (User.id u) db))
  /\ (forall u', u' ∈ users (Deletion.delete_user (User.id u) db) ->
        User.id u' <> User.id u).
Proof.
  unfold Deletion.delete_user. simpl. split_and!.
  - intros e. rewrite list_elem_of_filter. tauto.
  - unfold owned_projects_count. simpl. apply length_zero_iff_nil.
    induction (projects db) as [|p l IH]; [done|].
    rewrite fmap_cons, filter_cons, IH.
    destruct (decide (Project.owner p = Some (User.id u))) as [Hp|Hp];
      by rewrite decide_False.
  - rewrite <- list_fmap_compose. apply list_fmap_ext.
    intros _ p _. simpl. by destruct (decide _).
  - intros p Hp Hown. apply list_elem_of_fmap. exists p. split; [|done].
    by destruct (decide _).
  - by intros u' [? _]%list_elem_of_filter.
Qed.

Lemma delete_user_cascades_witness :
  telescope ∈ projects (Deletion.delete_user (User.id member) sample_db).
Proof.
  apply (delete_user_cascades member sample_db); [by left|done].
Defined.

Lemma delete_project_owned pid db u :
  owned_projects_count (Deletion.delete_project pid db) u <= owned_projects_count db u.
Proof.
  unfold owned_projects_count, Deletion.delete_project. simpl.
  rewrite list_filter_filter. apply sublist_length.
  induction (projects db) as [|p l IH]; [done|].
  rewrite !filter_cons.
  destruct (decide (Project.owner p = Some (User.id u))) as [Hp|Hp].
  - destruct (decide _) as [_|Hn]; [by constructor|by constructor].
  - destruct (decide _) as [[? _]|_]; [done|done].
Qed.

(** X22. Deleting the project a user is enrolled in frees the user to
    propose: an approved, active user who owns fewer than four projects,
    in an active semester that accepts projects, can propose once the only
    project of their enrollment in that semester is deleted. *)
Theorem delete_project_frees_proposer
    (pid : nat) (db : Database) (now : date) (u : User.t) (sem : Semester.t) :
  enrollment_unique (enrollments db) ->
  User.is_approved u = true -> User.is_active u = true ->
  Semester.is_active now sem = true ->
  Semester.is_accepting_new_projects sem = true ->
  owned_projects_count db u < 4 ->
  (forall e, e ∈ enrollments db ->
     Enrollment.user e = User.id u -> Enrollment.semester e = Semester.id sem ->
     Enrollment.project e = Some pid \/ Enrollment.project e = None) ->
  can_propose_project (Deletion.delete_project pid db) now u (Some sem) = Return true.
Proof.
  intros Huniq Ha Hb Hc Hd Hown Hmine.
  rewrite can_propose_project_pass; try done.
  2: { eapply Nat.le_lt_trans; [apply delete_project_owned|done]. }
  pose proof (delete_project_unique pid db Huniq (User.id u) (Semester.id sem)) as Hlen.
  pose proof (objects_get_cases (enrollments (Deletion.delete_project pid db))
                (User.id u) (Semester.id sem)) as Hcases.
  destruct (Enrollment.objects_get _ _ _) as [e'|[]]; try done.
  - assert (e' ∈ enrollments (Deletion.delete_project pid db)
            /\ Enrollment.user e' = User.id u
            /\ Enrollment.semester e' = Semester.id sem) as (Hin & Hu & Hs).
    { assert (e' ∈ [e']) as He by left. rewrite <- Hcases in He.
      apply list_elem_of_filter in He as [[? ?] ?]. done. }
    apply delete_project_elem in Hin
      as (e & He & Hu' & Hs' & [[_ Hnone]|[Hp ->]]).
    + by rewrite Hnone.
    + destruct (Hmine e He Hu Hs) as [?|Hnone]; [done|]. by rewrite Hnone.
  - lia.
Qed.

Lemma delete_project_frees_proposer_witness :
  can_propose_project (Deletion.delete_project 40 sample_db) 738600%Z member (Some spring)
  = Return true.
Proof.
  apply delete_project_frees_proposer; try done.
  - exact sample_enrollments_unique.
  - compute_done.
  - intros e He Hu Hs.
    repeat (apply elem_of_cons in He as [->|He]); try done.
    + by left.
    + by apply elem_of_nil in He.
Defined.

(** ** The manager of users *)

Section UserManagerFacts.
Context (normalize_email : string -> string).

Lemma setdefault_lookup key value d key' :
  UserManager.setdefault key value d !! key'
  = if decide (key = key')
    then Some (default value (d !! key))
    else d !! key'.
Proof.
  unfold UserManager.setdefault.
  destruct (decide (key = key')) as [<-|Hne].
  - destruct (d !! key) eqn:Hd; simpl; [done|]. by rewrite lookup_insert_eq.
  - destruct (d !! key); [done|]. by rewrite lookup_insert_ne.
Qed.

(** X23. [create_superuser] never creates an account that is not both
    staff and superuser: whatever it creates has both flags [True] and a
    non-empty email given; a flag passed as anything but [True] raises
    [ValueError], before the email is looked at. *)
Theorem create_superuser_flags
    (email password : option string)
    (extra_fields : gmap string UserManager.field_value) :
  (forall u,
     UserManager.create_superuser normalize_email email password extra_fields
     = UserManager.Created u ->
     UserManager.fields u !! "is_staff" = Some (UserManager.FBool true)
     /\ UserManager.fields u !! "is_superuser" = Some (UserManager.FBool true)
     /\ exists given, email = Some given /\ given <> ""
          /\ UserManager.email u = normalize_email given)
  /\ (forall v, extra_fields !! "is_staff" = Some v -> v <> UserManager.FBool true ->
        UserManager.create_superuser normalize_email email password extra_fields
        = UserManager.ValueError "Superuser must have is_staff=True.")
  /\ (forall v, extra_fields !! "is_superuser" = Some v -> v <> UserManager.FBool true ->
        exists msg,
          UserManager.create_superuser normalize_email email password extra_fields
          = UserManager.ValueError msg).
Proof.
  unfold UserManager.create_superuser, UserManager.is_not_True. split_and!.
  - intros u.
    destruct (_ !! "is_staff") as [[|[]|]|] eqn:Hs; try done.
    destruct (_ !! "is_superuser") as [[|[]|]|] eqn:Hsu; try done.
    unfold UserManager._create_user.
    destruct email as [given|]; [|done].
    destruct (truthy given) eqn:Hg; [|done]. simpl. intros [= <-]. simpl.
    split_and!; [done|done|]. exists given. split_and!; [done| |done].
    by apply truthy_true.
  - intros v Hv Hne. rewrite !setdefault_lookup. simpl. rewrite Hv. simpl.
    by destruct v as [|[]|].
  - intros v Hv Hne. rewrite !setdefault_lookup. simpl. rewrite Hv. simpl.
    destruct (default (UserManager.FBool true) (extra_fields !! "is_staff"))
      as [|[]|]; try (by eexists).
    destruct v as [|[]|]; try done; by eexists.
Qed.

End UserManagerFacts.

Lemma create_superuser_flags_witness :
  UserManager.create_superuser id (Some "root@rpi.edu") None
    {[ "is_staff" := UserManager.FBool false ]}
  = UserManager.ValueError "Superuser must have is_staff=True.".
Proof.
  by apply (proj1 (proj2 (create_superuser_flags id (Some "root@rpi.edu") None
                            {[ "is_staff" := UserManager.FBool false ]}))
              (UserManager.FBool false)).
Defined.


(** ** Rows that the constraints refuse *)

Section Refusals.
Context {row : Type} `{Orm.Model row}.

Lemma collides_true cols (r r' : row) (t : list row) k :
  r' ∈ t ->
  Orm.index_key cols r = Some k -> Orm.index_key cols r' = Some k ->
  Orm.collides cols r t = true.
Proof.
  intros Hin Hk Hk'. unfold Orm.collides. rewrite Hk.
  apply bool_decide_eq_true, list_elem_of_omap. eauto.
Qed.
End Refusals.

(** X25. An enrollment for a user and semester that already have one is
    always refused: creating it raises [IntegrityError], and so does saving
    another row into that pair. *)
Theorem enrollment_duplicate_refused (t : list Enrollment.t) (r r' : Enrollment.t) :
  r' ∈ t ->
  Enrollment.semester r = Enrollment.semester r' ->
  Enrollment.user r = Enrollment.user r' ->
  Orm.execute enrollment_unique_together (Orm.Create r) t = Raise IntegrityError
  /\ (Enrollment.id r <> Enrollment.id r' ->
      Orm.execute enrollment_unique_together (Orm.Save r) t = Raise IntegrityError).
Proof.
  intros Hin Hs Hu.
  assert (Orm.index_key ["semester"; "user"] r
          = Orm.index_key ["semester"; "user"] r') as Hkey.
  { unfold Orm.index_key. simpl. by rewrite Hs, Hu. }
  assert (exists k, Orm.index_key ["semester"; "user"] r' = Some k) as [k Hk]
    by by eexists.
  split.
  - simpl. rewrite (collides_true _ r r' t k); [|done|congruence|done].
    by rewrite orb_true_r.
  - intros Hne. simpl.
    rewrite (collides_true _ r r' (Orm.others r t) k); [done| |congruence|done].
    apply list_elem_of_filter. split; [|done]. simpl. congruence.
Qed.

Lemma enrollment_duplicate_refused_witness :
  Orm.execute enrollment_unique_together (Orm.Create duplicate_enrollment)
    (enrollments sample_db) = Raise IntegrityError.
Proof.
  by apply (enrollment_duplicate_refused _ duplicate_enrollment free_enrollment);
    [right; right; left|..].
Defined.

(** X26. In the schema the migrations produce, a second pitch for a
    semester and project that already have one is always refused. *)
Theorem project_pitch_duplicate_refused
    (st : gmap string (list (list string)))
    (t : list ProjectPitch.t) (r r' : ProjectPitch.t) :
  r' ∈ t ->
  ProjectPitch.semester r = ProjectPitch.semester r' ->
  ProjectPitch.project r = ProjectPitch.project r' ->
  Orm.execute (Migration.unique_together_of st "projectpitch") (Orm.Create r) t
    = Raise IntegrityError
  /\ (ProjectPitch.id r <> ProjectPitch.id r' ->
      Orm.execute (Migration.unique_together_of st "projectpitch") (Orm.Save r) t
      = Raise IntegrityError).
Proof.
  intros Hin Hs Hp. rewrite project_pitch_unique_together.
  assert (Orm.index_key ["semester"; "project"] r
          = Orm.index_key ["semester"; "project"] r') as Hkey.
  { unfold Orm.index_key. simpl. by rewrite Hs, Hp. }
  assert (exists k, Orm.index_key ["semester"; "project"] r' = Some k) as [k Hk]
    by by eexists.
  split.
  - simpl. rewrite (collides_true _ r r' t k); [|done|congruence|done].
    by rewrite orb_true_r.
  - intros Hne. simpl.
    rewrite (collides_true _ r r' (Orm.others r t) k); [done| |congruence|done].
    apply list_elem_of_filter. split; [|done]. simpl. congruence.
Qed.

Lemma project_pitch_duplicate_refused_witness :
  Orm.execute (Migration.unique_together_of ∅ "projectpitch")
    (Orm.Create second_pitch) [telescope_pitch] = Raise IntegrityError.
Proof.
  by apply (project_pitch_duplicate_refused ∅ _ second_pitch telescope_pitch);
    [left|..].
Defined.

(** ** Blank and clashing RCS IDs *)

Lemma insert_user_rcs_clash (u u' : User.t) (t : list User.t) :
  u' ∈ t -> User.rcs_id u' = User.rcs_id (pre_save_user u) ->
  insert_user u t = Raise IntegrityError.
Proof.
  intros Hin Hrcs. unfold insert_user, user_unique. simpl.
  rewrite (collides_true ["rcs_id"] (pre_save_user u) u' t
             [Orm.VStr (User.rcs_id u')]); try done.
  - by rewrite !orb_true_r.
  - unfold Orm.index_key. simpl. by rewrite Hrcs.
Qed.



Lemma user_get_active_semesters_spec_witness :
  spring ∈ Queries.user_get_active_semesters [fall; spring] (enrollments sample_db) member.
Proof.
  apply (user_get_active_semesters_spec [fall; spring] (enrollments sample_db) member).
  split; [by right; left|].
  exists member_enrollment. split_and!; [by left|reflexivity|reflexivity].
Defined.
